(** * WGAN-GP training: the adversarial pair and the training loop

    A shallow embedding of [src/models/wgan.py] (class [WGAN]) and of
    [src/trainer.py] (class [Trainer]).

    Conventions of the embedding.
    - Python exceptions are values of [exn]; a call that may raise returns
      a [result].
    - A configuration ([tp.Dict[str, tp.Any]]) is a finite map from strings
      to Python values [pyval].
    - [torch.float] scalars are exact rationals ([Q]); rounding, infinities
      and NaN are outside the model.
    - A tensor carries its shape, its entries in row-major order and its
      autograd graph: the parameter groups the graph reaches and the
      inputs of the module calls recorded in it.
    - The gradient that [backward()] adds to the [.grad] of a parameter
      group is represented by what determines it: the loss with its
      graph, and the two modules as they were at that moment. *)

From Stdlib Require Import QArith ZArith Lia Lqa Ascii String.
From stdpp Require Import base option list strings gmap pretty.

Local Open Scope string_scope.
Local Open Scope list_scope.

(** ** Python values held by a configuration *)

#[warnings="-register-all"]
Inductive pyval : Type :=
| VNone
| VBool (b : bool)
| VInt (z : Z)
| VFloat (q : Q)
| VStr (s : string)
| VDict (d : gmap string pyval).

(** ** Exceptions and results *)

Inductive exn : Type :=
| KeyError (key : string)
| AttributeError (attr : string)
| TypeError (what : string)
| NameError (template : string) (arg : option pyval)
| ValueError (template : string) (arg : option pyval)
| UnboundLocalError (var : string)
| IndexError (what : string)
| RuntimeError (what : string)
| ZeroDivisionError
| FileNotFoundError (path : string).

Inductive result (A : Type) : Type :=
| Ok (a : A)
| Err (e : exn).
Arguments Ok {A} a.
Arguments Err {A} e.

#[global] Instance result_ret : MRet result := fun A a => Ok a.
#[global] Instance result_bind : MBind result := fun A B f m =>
  match m with
  | Ok a => f a
  | Err e => Err e
  end.

Definition is_ok {A} (r : result A) : bool :=
  match r with Ok _ => true | Err _ => false end.

Abbreviation config := (gmap string pyval).

(** [d[key]] on a dict. *)
Definition getitem (d : config) (key : string) : result pyval :=
  match d !! key with
  | Some v => Ok v
  | None => Err (KeyError key)
  end.

(** [v[key]] on an arbitrary value: only dicts are subscriptable by a
    string. *)
Definition subscript (v : pyval) (key : string) : result pyval :=
  match v with
  | VDict d => getitem d key
  | _ => Err (TypeError "subscript")
  end.

(** [bool(v)], as used by [if checkpoint_path:]. *)
Definition truthy (v : pyval) : bool :=
  match v with
  | VNone => false
  | VBool b => b
  | VInt z => negb (z =? 0)%Z
  | VFloat q => negb (Qeq_bool q 0)
  | VStr s => negb (String.eqb s "")
  | VDict d => negb (bool_decide (d = ∅))
  end.

(** [str.lower] on ASCII: the letters A to Z move to a to z, every other
    byte is kept. *)
Definition lower_ascii (c : ascii) : ascii :=
  let n := nat_of_ascii c in
  if (65 <=? n)%nat && (n <=? 90)%nat then ascii_of_nat (n + 32) else c.

Fixpoint lower (s : string) : string :=
  match s with
  | EmptyString => EmptyString
  | String c s' => String (lower_ascii c) (lower s')
  end.

(** The letters A to Z. *)
Definition is_upper (c : ascii) : bool :=
  let n := nat_of_ascii c in (65 <=? n)%nat && (n <=? 90)%nat.

(** [v.lower()]: only strings have the method. *)
Definition py_lower (v : pyval) : result string :=
  match v with
  | VStr s => Ok (lower s)
  | _ => Err (AttributeError "lower")
  end.

(** ** Tensors *)

(** The autograd graph of a tensor: the parameter groups it reaches
    ([backward()] accumulates into the [.grad] of exactly these) and the
    tensors saved for the backward pass, which are the inputs of the
    module calls, each with its shape and entries. *)
Record deps : Type := mkDeps {
  reaches_generator : bool;
  reaches_critic : bool;
  saved : list (list nat * list Q)
}.

Definition no_graph : deps := mkDeps false false [].
Definition generator_leaves : deps := mkDeps true false [].
Definition critic_leaves : deps := mkDeps false true [].

Definition join (a b : deps) : deps :=
  mkDeps (reaches_generator a || reaches_generator b)
         (reaches_critic a || reaches_critic b)
         (saved a ++ saved b).

Record tensor : Type := mkTensor {
  shape : list nat;
  data : list Q;
  graph : deps
}.

(** A zero-dimensional tensor, as returned by [torch.mean]. *)
Record scalar : Type := mkScalar {
  value : Q;
  sgraph : deps
}.

Definition numel (s : list nat) : nat := foldr Nat.mul 1%nat s.

(** What a module call records of its input [t]. *)
Definition saved_input (t : tensor) : deps :=
  mkDeps false false [(shape t, data t)].

(** [t.detach()] *)
Definition detach (t : tensor) : tensor :=
  mkTensor (shape t) (data t) no_graph.

(** [t.to(device).type(torch.float)]: placement and the cast keep shape,
    entries and graph. *)
Definition to_float (t : tensor) : tensor := t.

(** [t.shape[0]] *)
Definition shape0 (t : tensor) : result nat :=
  match shape t with
  | n :: _ => Ok n
  | [] => Err (IndexError "tuple index out of range")
  end.

(** [t.unsqueeze(dim=1)] *)
Definition unsqueeze1 (t : tensor) : result tensor :=
  match shape t with
  | n :: rest => Ok (mkTensor (n :: 1%nat :: rest) (data t) (graph t))
  | [] => Err (IndexError "Dimension out of range")
  end.

(** [n] consecutive blocks of [k] entries. *)
Fixpoint chunks (k n : nat) (l : list Q) : list (list Q) :=
  match n with
  | O => []
  | S n' => take k l :: chunks k n' (drop k l)
  end.

(** torch.cat leaves out one-dimensional empty tensors. *)
Definition legacy_empty (t : tensor) : bool :=
  bool_decide (shape t = [0%nat]).

(** [torch.cat([a, b], dim=1)] *)
Definition cat1 (a b : tensor) : result tensor :=
  let g := join (graph a) (graph b) in
  match shape a, shape b with
  | [], _ | _, [] =>
      Err (RuntimeError "zero-dimensional tensor cannot be concatenated")
  | n :: ca :: ra, m :: cb :: rb =>
      if bool_decide (n = m ∧ ra = rb) then
        Ok (mkTensor (n :: (ca + cb)%nat :: ra)
              (concat (zip_with app (chunks (ca * numel ra) n (data a))
                                    (chunks (cb * numel rb) m (data b))))
              g)
      else if bool_decide (length ra = length rb) then
        Err (RuntimeError "Sizes of tensors must match except in dimension 1")
      else Err (RuntimeError "Tensors must have same number of dimensions")
  | [_], _ :: _ :: _ =>
      if legacy_empty a then Ok (mkTensor (shape b) (data b) g)
      else Err (RuntimeError "Tensors must have same number of dimensions")
  | _ :: _ :: _, [_] =>
      if legacy_empty b then Ok (mkTensor (shape a) (data a) g)
      else Err (RuntimeError "Tensors must have same number of dimensions")
  | [_], [_] =>
      if legacy_empty a && legacy_empty b then Ok (mkTensor [0%nat] [] g)
      else Err (IndexError "Dimension out of range")
  end.

(** Entries of [t.expand(target)] for a tensor whose shape [s] has as
    many dimensions as [target]: a dimension of size 1 is repeated. *)
Fixpoint expand_data (s target : list nat) (d : list Q) : list Q :=
  match s, target with
  | si :: s', ti :: t' =>
      let blocks := (expand_data s' t') <$> (chunks (numel s') si d) in
      if bool_decide (si = ti) then concat blocks
      else concat (replicate ti (concat blocks))
  | _, _ => d
  end.

Fixpoint expandable (s target : list nat) : bool :=
  match s, target with
  | [], [] => true
  | si :: s', ti :: t' =>
      (bool_decide (si = ti) || bool_decide (si = 1%nat)) && expandable s' t'
  | _, _ => false
  end.

(** [t.expand(target)] *)
Definition expand (t : tensor) (target : list nat) : result tensor :=
  let s := replicate (length target - length (shape t)) 1%nat ++ shape t in
  if expandable s target then
    Ok (mkTensor target (expand_data s target (data t)) (graph t))
  else Err (RuntimeError "The expanded size of the tensor must match the existing size").

Definition Qsum (l : list Q) : Q := foldr Qplus 0%Q l.

Definition Qmean (l : list Q) : Q :=
  (Qsum l / inject_Z (Z.of_nat (length l)))%Q.

(** [torch.mean(t)] *)
Definition mean (t : tensor) : scalar :=
  mkScalar (Qmean (data t)) (graph t).

(** Arithmetic on zero-dimensional tensors. *)
Definition ssub (a b : scalar) : scalar :=
  mkScalar (value a - value b)%Q (join (sgraph a) (sgraph b)).
Definition sadd (a b : scalar) : scalar :=
  mkScalar (value a + value b)%Q (join (sgraph a) (sgraph b)).
Definition sneg (a : scalar) : scalar :=
  mkScalar (- value a)%Q (sgraph a).
(** [k * a] for a Python int [k]. *)
Definition smul (k : Z) (a : scalar) : scalar :=
  mkScalar (inject_Z k * value a)%Q (sgraph a).

(** ** Random draws *)

(** The state of the random generators: the supply of uniform draws in
    [0, 1) behind [torch.rand], the supply behind the noise source, and
    the number of entries drawn so far. *)
Record rng : Type := mkRng {
  uniform_draws : nat -> Q;
  noise_draws : nat -> Q;
  cursor : nat
}.

Definition advance (k : nat) (r : rng) : rng :=
  mkRng (uniform_draws r) (noise_draws r) (cursor r + k).

(** [torch.rand(n, m)] *)
Definition torch_rand (n m : nat) (r : rng) : tensor * rng :=
  (mkTensor [n; m] (uniform_draws r <$> seq (cursor r) (n * m)) no_graph,
   advance (n * m) r).

(** The attributes of a [WGAN] instance; a network attribute is unset
    until its [create_*] method assigns it. *)
Record WGAN (network : Type) : Type := mkWGAN {
  params : config;
  generator_model : option network;
  critic_model : option network
}.
Arguments mkWGAN {network} _ _ _.
Arguments params {network} _.
Arguments generator_model {network} _.
Arguments critic_model {network} _.

(** What [.grad] of the parameters of a module holds: one contribution
    per [backward()] since it was last cleared, each given by the loss
    and by the two modules at the time of the call; empty when [.grad]
    is unset. *)
Abbreviation gradients network := (list (scalar * WGAN network)).

(** ** Collaborators

    [torch] and the [models] package are not part of the two source
    files; the operations the code calls on them are the methods of two
    interfaces. *)

Class Torch (network state_dict : Type) : Type := {
  (** [net(x)]: shape and entries of the output of a module. *)
  forward : network -> tensor -> result tensor;
  (** [torch.autograd.grad] of the summed outputs of [net] with respect
      to its input [x]: shape and entries. *)
  input_gradient : network -> tensor -> result tensor;
  torch_load : pyval -> result state_dict;
  load_state_dict : network -> state_dict -> result network;
  (** whether [net.parameters()] yields a parameter *)
  has_parameters : network -> bool;
  (** One [torch.optim.Adam] update of the parameters of a module: from
      the learning rate, the weight decay, the gradients that the earlier
      steps of the optimizer consumed (its moment estimates and step
      number), and the gradient accumulated in [.grad]. *)
  adam_update : pyval -> pyval -> list (gradients network) -> gradients network
                -> network -> network;
  (** the square root on [torch.float] *)
  torch_sqrt : Q -> Q
}.

Class Models (network : Type) : Type := {
  create_node_model : pyval -> pyval -> result network;
  create_fcn_model : pyval -> pyval -> result network;
  get_noise : nat -> pyval -> rng -> result (tensor * rng);
  get_gradient : network -> tensor -> tensor -> pyval -> tensor -> result tensor;
  gradient_penalty : tensor -> result scalar
}.

(** [self.<attr>] for an attribute that may not have been assigned. *)
Definition getattr {A} (name : string) (o : option A) : result A :=
  match o with
  | Some a => Ok a
  | None => Err (AttributeError name)
  end.

(** [net(x)] with gradient tracking: the graph of the output reaches what
    the graph of the input reaches and the parameters of the module, and
    records the input. *)
Definition call `{Torch network state_dict}
    (leaves : deps) (net : network) (x : tensor) : result tensor :=
  y ← forward net x;
  Ok (mkTensor (shape y) (data y)
        (join (graph x) (join leaves (saved_input x)))).

(** ** WGAN: construction *)

Section Construction.
Context {network state_dict : Type}.
Context `{!Torch network state_dict, !Models network}.

Definition load_checkpoint (path : pyval) (net : network) : result network :=
  if truthy path then
    ckpt ← torch_load path;
    load_state_dict net ckpt
  else Ok net.

Definition create_generator (self : WGAN network) : result (WGAN network) :=
  arch ← getitem (params self) "generator_architecture";
  name ← py_lower arch;
  net ←
    (if String.eqb name "NODE" then
       g ← getitem (params self) "generator";
       p ← subscript g "params";
       mt ← getitem (params self) "generator_model_type";
       create_node_model p mt
     else
       arch2 ← getitem (params self) "critic_architecture";
       name2 ← py_lower arch2;
       if String.eqb name2 "FCN" then
         g ← getitem (params self) "generator";
         mt ← getitem (params self) "generator_model_type";
         create_fcn_model g mt
       else
         arch3 ← getitem (params self) "generator_architecture";
         Err (NameError "Unknown generator architecture: {}" (Some arch3)));
  g ← getitem (params self) "generator";
  path ← subscript g "checkpoint_path";
  net' ← load_checkpoint path net;
  Ok (mkWGAN (params self) (Some net') (critic_model self)).

Definition create_critic (self : WGAN network) : result (WGAN network) :=
  arch ← getitem (params self) "critic_architecture";
  name ← py_lower arch;
  net ←
    (if String.eqb name "node" then
       c ← getitem (params self) "critic";
       mt ← getitem (params self) "critic_model_type";
       create_node_model c mt
     else
       arch2 ← getitem (params self) "critic_architecture";
       name2 ← py_lower arch2;
       if String.eqb name2 "fcn" then
         c ← getitem (params self) "critic";
         mt ← getitem (params self) "critic_model_type";
         create_fcn_model c mt
       else
         arch3 ← getitem (params self) "critic_architecture";
         Err (NameError "Unknown critic architecture: {}" (Some arch3)));
  c ← getitem (params self) "critic";
  path ← subscript c "checkpoint_path";
  net' ← load_checkpoint path net;
  Ok (mkWGAN (params self) (generator_model self) (Some net')).

(** [WGAN.__init__] *)
Definition init (cfg : config) : result (WGAN network) :=
  self ← create_generator (mkWGAN cfg None None);
  create_critic self.

End Construction.

(** ** The mutable world of a training run *)

Inductive role : Type := Generator | Critic.

(** A [torch.optim.Adam] instance: the module whose parameters it was
    given, its hyperparameters and the number of [step()] calls so far. *)
Record optimizer : Type := mkOptimizer {
  bound_to : role;
  learning_rate : pyval;
  weight_decay : pyval;
  step_count : nat
}.

(** What the metrics sink receives. *)
Inductive artifact : Type :=
| Number (q : Q)
| Figure (name : string).

Inductive event : Type :=
| log_metric (key : string) (v : artifact)
| log_image (key : string) (v : artifact).

(** A batch of the data loader: [(x, dlls)]. *)
Abbreviation batch := (tensor * tensor)%type.

(** The dict a training method returns, in insertion order. *)
Abbreviation metrics := (list (string * scalar)).

Record world (network : Type) : Type := mkWorld {
  gan_model : WGAN network;
  (** the [.grad] of the parameters of each module *)
  generator_grad : gradients network;
  critic_grad : gradients network;
  generator_optimizer : optimizer;
  critic_optimizer : optimizer;
  (** the state each optimizer keeps between steps: the gradients its
      earlier steps consumed, oldest first *)
  generator_optimizer_state : list (gradients network);
  critic_optimizer_state : list (gradients network);
  (** the sink, with what it received so far; [None] when no logger was
      given *)
  neptune_logger : option (list event);
  random : rng;
  (** the paths that exist in the file system *)
  files : gset string
}.
Arguments mkWorld {network} _ _ _ _ _ _ _ _ _ _.
Arguments gan_model {network} _.
Arguments generator_grad {network} _.
Arguments critic_grad {network} _.
Arguments generator_optimizer {network} _.
Arguments critic_optimizer {network} _.
Arguments generator_optimizer_state {network} _.
Arguments critic_optimizer_state {network} _.
Arguments neptune_logger {network} _.
Arguments random {network} _.
Arguments files {network} _.

Section World.
Context {network : Type}.
Implicit Type w : world network.

Definition set_gan_model (g : WGAN network) w : world network :=
  mkWorld g (generator_grad w) (critic_grad w) (generator_optimizer w)
    (critic_optimizer w) (generator_optimizer_state w) (critic_optimizer_state w)
    (neptune_logger w) (random w) (files w).
Definition set_grads (gg cg : gradients network) w : world network :=
  mkWorld (gan_model w) gg cg (generator_optimizer w)
    (critic_optimizer w) (generator_optimizer_state w) (critic_optimizer_state w)
    (neptune_logger w) (random w) (files w).
Definition set_generator_optimizer (o : optimizer) (state : list (gradients network)) w
    : world network :=
  mkWorld (gan_model w) (generator_grad w) (critic_grad w) o
    (critic_optimizer w) state (critic_optimizer_state w)
    (neptune_logger w) (random w) (files w).
Definition set_critic_optimizer (o : optimizer) (state : list (gradients network)) w
    : world network :=
  mkWorld (gan_model w) (generator_grad w) (critic_grad w)
    (generator_optimizer w) o (generator_optimizer_state w) state
    (neptune_logger w) (random w) (files w).
Definition set_neptune_logger (l : option (list event)) w : world network :=
  mkWorld (gan_model w) (generator_grad w) (critic_grad w)
    (generator_optimizer w) (critic_optimizer w)
    (generator_optimizer_state w) (critic_optimizer_state w) l (random w) (files w).
Definition set_random (r : rng) w : world network :=
  mkWorld (gan_model w) (generator_grad w) (critic_grad w)
    (generator_optimizer w) (critic_optimizer w)
    (generator_optimizer_state w) (critic_optimizer_state w)
    (neptune_logger w) r (files w).
Definition set_files (f : gset string) w : world network :=
  mkWorld (gan_model w) (generator_grad w) (critic_grad w)
    (generator_optimizer w) (critic_optimizer w)
    (generator_optimizer_state w) (critic_optimizer_state w)
    (neptune_logger w) (random w) f.

(** Computations that read and write the world and may raise. *)
Definition M (A : Type) : Type := world network -> result (A * world network).

#[global] Instance M_ret : MRet M := fun A a w => Ok (a, w).
#[global] Instance M_bind : MBind M := fun A B f m w =>
  match m w with
  | Ok (a, w') => f a w'
  | Err e => Err e
  end.

Definition lift {A} (r : result A) : M A := fun w =>
  match r with
  | Ok a => Ok (a, w)
  | Err e => Err e
  end.

Definition get_self : M (WGAN network) := fun w => Ok (gan_model w, w).

(** A call that consumes random draws. *)
Definition draw {A} (f : rng -> result (A * rng)) : M A := fun w =>
  match f (random w) with
  | Ok (a, r) => Ok (a, set_random r w)
  | Err e => Err e
  end.

End World.
Arguments M : clear implicits.

(** ** WGAN: optimizers and the per-batch computations *)

Section Methods.
Context {network state_dict : Type}.
Context `{!Torch network state_dict, !Models network}.

#[local] Abbreviation M := (M network).

(** [v == 'adam'] *)
Definition is_adam (v : pyval) : bool :=
  match v with
  | VStr s => String.eqb s "adam"
  | _ => false
  end.

(** [0.0 <= v]: numbers compare (a bool as 0 or 1), on any other value
    the comparison raises. *)
Definition nonnegative (v : pyval) : result bool :=
  match v with
  | VBool _ => Ok true
  | VInt z => Ok (0 <=? z)%Z
  | VFloat q => Ok (Qle_bool 0 q)
  | _ => Err (TypeError "'<=' not supported between instances")
  end.

(** [torch.optim.Adam(net.parameters(), lr=lr, weight_decay=wd)]: the
    constructor checks the learning rate, then the weight decay (the
    other hyperparameters keep their defaults), then that it was given a
    parameter. *)
Definition Adam (bound : role) (net : network) (lr wd : pyval) : result optimizer :=
  ok ← nonnegative lr;
  if negb ok then Err (ValueError "Invalid learning rate: {}" (Some lr))
  else
    ok ← nonnegative wd;
    if negb ok then Err (ValueError "Invalid weight_decay value: {}" (Some wd))
    else if has_parameters net then Ok (mkOptimizer bound lr wd 0)
    else Err (ValueError "optimizer got an empty parameter list" None).

Definition configure_optimizers (self : WGAN network)
    : result (optimizer * optimizer) :=
  g ← getitem (params self) "generator";
  name ← subscript g "optimizer";
  generator_optimizer ←
    (if is_adam name then
       m ← getattr "generator_model" (generator_model self);
       g ← getitem (params self) "generator";
       lr ← subscript g "learning_rate";
       g ← getitem (params self) "generator";
       wd ← subscript g "weight_decay";
       Adam Generator m lr wd
     else Err (NameError "Unknown optimizer name" None));
  c ← getitem (params self) "critic";
  name ← subscript c "optimizer";
  critic_optimizer ←
    (if is_adam name then
       m ← getattr "critic_model" (critic_model self);
       c ← getitem (params self) "critic";
       lr ← subscript c "learning_rate";
       c ← getitem (params self) "critic";
       wd ← subscript c "weight_decay";
       Adam Critic m lr wd
     else Err (NameError "Unknown optimizer name" None));
  Ok (generator_optimizer, critic_optimizer).

(** Lines 88 to 99 of [train_generator], which are lines 111 to 122 of
    [train_critic] word for word: the real and the generated sample. *)
Definition build_samples (b : batch) : M (tensor * tensor) :=
  self ← get_self;
  let '(x, dlls) := b in
  _ ← lift (getitem (params self) "device");
  let x := to_float x in
  _ ← lift (getitem (params self) "device");
  let dlls := to_float dlls in
  dlls ← lift (unsqueeze1 dlls);
  n ← lift (shape0 x);
  z ← lift (getitem (params self) "z_dimensions");
  noise ← draw (get_noise n z);
  _ ← lift (getitem (params self) "device");
  noized_x ← lift (cat1 x noise);
  real_full ← lift (cat1 dlls x);
  g ← lift (getattr "generator_model" (generator_model self));
  out ← lift (call generator_leaves g noized_x);
  generated ← lift (cat1 out x);
  mret (real_full, generated).

Definition train_generator (b : batch) : M metrics :=
  '(real_full, generated) ← build_samples b;
  self ← get_self;
  c ← lift (getattr "critic_model" (critic_model self));
  crit_fake_pred ← lift (call critic_leaves c generated);
  let generator_loss := sneg (mean crit_fake_pred) in
  mret [("G/loss", generator_loss)].

Definition train_critic (b : batch) : M metrics :=
  '(real_full, generated) ← build_samples b;
  self ← get_self;
  c ← lift (getattr "critic_model" (critic_model self));
  crit_fake_pred ← lift (call critic_leaves c (detach generated));
  c ← lift (getattr "critic_model" (critic_model self));
  crit_real_pred ← lift (call critic_leaves c real_full);
  let crit_fake_pred_mean := mean crit_fake_pred in
  let crit_real_pred_mean := mean crit_real_pred in
  let critic_loss := ssub crit_fake_pred_mean crit_fake_pred_mean in
  m ← lift (shape0 real_full);
  epsilon ← draw (fun r => Ok (torch_rand m 1 r));
  epsilon ← lift (expand epsilon (shape real_full));
  _ ← lift (getitem (params self) "device");
  c ← lift (getattr "critic_model" (critic_model self));
  gradient ← lift (get_gradient c real_full generated VNone epsilon);
  gp ← lift (gradient_penalty gradient);
  let critic_loss := sadd critic_loss (smul 10 gp) in
  mret [("C/loss", critic_loss);
        ("C/fake_pred", crit_fake_pred_mean);
        ("C/real_pred", crit_real_pred_mean);
        ("gradient penalty", gp)].

(** Reading a local variable of a function body; [None] before its
    first assignment. *)
Definition load_local {A} (name : string) (v : option A) : result A :=
  match v with
  | Some a => Ok a
  | None => Err (UnboundLocalError name)
  end.

(** [net(x)] under [torch.no_grad()]: nothing is recorded. *)
Definition call_no_grad (net : network) (x : tensor) : result tensor :=
  y ← forward net x;
  Ok (mkTensor (shape y) (data y) no_graph).

Definition generate (b : batch) : M tensor :=
  self ← get_self;
  let dlls : option tensor := None in
  let '(x, _) := b in
  _ ← lift (getitem (params self) "device");
  let x := to_float x in
  d ← lift (load_local "dlls" dlls);
  _ ← lift (getitem (params self) "device");
  let dlls := Some (to_float d) in
  d ← lift (load_local "dlls" dlls);
  d ← lift (unsqueeze1 d);
  let dlls := Some d in
  n ← lift (shape0 x);
  z ← lift (getitem (params self) "z_dimensions");
  noize ← draw (get_noise n z);
  _ ← lift (getitem (params self) "device");
  noized_x ← lift (cat1 x noize);
  g ← lift (getattr "generator_model" (generator_model self));
  generated ← lift (call_no_grad g noized_x);
  mret generated.

(** What the critic must offer for a sample of shape [n, 1 + f] to be
    scored. *)
Definition critic_ready (w : world network) (n f : nat) : Prop :=
  exists c,
    critic_model (gan_model w) = Some c /\
    forall t, shape t = [n; (1 + f)%nat] -> is_ok (forward c t) = true.

(** What a batch and a world must offer for lines 88 to 99 to run
    through: features [n, f], targets [n], the two configuration
    entries, noise of shape [n, k], and a generator that maps
    [n, f + k] to one column. *)
Definition samples_ready (b : batch) w (n f k : nat) (r : rng) : Prop :=
  shape (fst b) = [n; f] /\ shape (snd b) = [n] /\
  is_Some (params (gan_model w) !! "device") /\
  (exists z noise,
      params (gan_model w) !! "z_dimensions" = Some z /\
      get_noise n z (random w) = Ok (noise, r) /\ shape noise = [n; k]) /\
  (exists g,
      generator_model (gan_model w) = Some g /\
      forall t, shape t = [n; (f + k)%nat] ->
                exists out, forward g t = Ok out /\ shape out = [n; 1%nat]).

End Methods.

(** ** The helpers of the [models] package, from their description *)

Section Helpers.
Context {network state_dict : Type}.
Context `{!Torch network state_dict}.

(** Modelled from the spec: [get_noise], absent from the source files.
    "Noise vector: tensor [N, Z], freshly sampled per forward pass,
    independent across calls." *)
Definition spec_get_noise (n : nat) (z : pyval) (r : rng)
    : result (tensor * rng) :=
  match z with
  | VInt z =>
      if (0 <=? z)%Z then
        let k := (n * Z.to_nat z)%nat in
        Ok (mkTensor [n; Z.to_nat z] (noise_draws r <$> seq (cursor r) k) no_graph,
            advance k r)
      else Err (RuntimeError "negative dimension")
  | _ => Err (TypeError "an integer is required")
  end.

(** [epsilon * real + (1 - epsilon) * generated], entry by entry. *)
Fixpoint mix (eps real fake : list Q) : list Q :=
  match eps, real, fake with
  | e :: eps', a :: real', b :: fake' =>
      (e * a + (1 - e) * b)%Q :: mix eps' real' fake'
  | _, _, _ => []
  end.

Definition interpolate (real fake epsilon : tensor) : result tensor :=
  if bool_decide (shape real = shape fake ∧ shape epsilon = shape real) then
    Ok (mkTensor (shape real) (mix (data epsilon) (data real) (data fake))
          (join (graph epsilon) (join (graph real) (graph fake))))
  else Err (RuntimeError "The size of tensor a must match the size of tensor b").

(** A graph cut off from the generator's parameters. *)
Definition without_generator (g : deps) : deps :=
  mkDeps false (reaches_critic g) (saved g).

(** Modelled from the spec: [get_gradient], absent from the source
    files. "Form the interpolated sample = epsilon * real +
    (1 - epsilon) * generated; score it with the critic; compute the
    gradient of the summed critic output with respect to the
    interpolated input." The result "must itself remain differentiable",
    so it carries the graph of the scores, and "the computation must not
    allow gradients to leak into the generator's parameters; only the
    critic's response surface is being regularized", so that graph
    reaches the critic's parameters and not the generator's. *)
Definition spec_get_gradient (crit : network) (real fake : tensor)
    (labels : pyval) (epsilon : tensor) : result tensor :=
  mixed ← interpolate real fake epsilon;
  mixed_scores ← call critic_leaves crit mixed;
  gradient ← input_gradient crit mixed;
  Ok (mkTensor (shape gradient) (data gradient)
        (without_generator (graph mixed_scores))).

Definition square (q : Q) : Q := (q * q)%Q.

(** The Euclidean norm of the gradient of one example. *)
Definition norm (row : list Q) : Q := torch_sqrt (Qsum (square <$> row)).

Definition penalty_term (row : list Q) : Q := square (norm row - 1).

(** The gradient of each example: one block of entries per index of
    the first dimension. *)
Definition examples (t : tensor) : list (list Q) :=
  match shape t with
  | n :: rest => chunks (numel rest) n (data t)
  | [] => [data t]
  end.

(** Modelled from the spec: [gradient_penalty], absent from the source
    files. "For each example, take the Euclidean norm of that
    per-example gradient over its feature dimensions; the penalty is
    the mean over the batch of (norm - 1)^2." *)
Definition spec_gradient_penalty (gradient : tensor) : result scalar :=
  Ok (mkScalar (Qmean (penalty_term <$> examples gradient)) (graph gradient)).

(** Modelled from the spec: [save_models], absent from the source
    files. "Checkpoint artifact: one file per (epoch, iteration)." *)
Definition spec_save_models (gan : WGAN network) (path : string) (epoch : nat)
    (fs : gset string) : result (gset string) :=
  Ok ({[path]} ∪ fs).

(** The [models] package with the two penalty helpers as described,
    around any factories and any noise source. *)
Definition spec_models
    (node fcn : pyval -> pyval -> result network)
    (noise : nat -> pyval -> rng -> result (tensor * rng)) : Models network :=
  {| create_node_model := node;
     create_fcn_model := fcn;
     get_noise := noise;
     get_gradient := spec_get_gradient;
     gradient_penalty := spec_gradient_penalty |}.

(** A [models] package whose two penalty helpers are the ones
    described. *)
Definition penalty_as_described (m : Models network) : Prop :=
  @get_gradient network m = spec_get_gradient /\
  @gradient_penalty network m = spec_gradient_penalty.

End Helpers.

(** ** Trainer *)

(** The methods of [gan_model] that [Trainer.fit] calls and that the
    class [WGAN] of [src/models/wgan.py] does not define. *)
Class Evaluation (network : Type) : Type := {
  save_models : WGAN network -> string -> nat -> gset string -> result (gset string);
  evaluate : WGAN network -> option (list batch) -> rng
             -> result (gmap string artifact * rng)
}.

(** The attributes of a [Trainer] that [fit] only reads. *)
Record Trainer : Type := mkTrainer {
  max_epoch : Z;
  display_step : Z;
  critic_step : Z;
  device : string;
  save_path : string;
  freeze_generator : bool
}.

(** [a % b] on Python ints. *)
Definition py_mod (a b : Z) : result Z :=
  if (b =? 0)%Z then Err ZeroDivisionError else Ok (a mod b)%Z.

(** [os.path.join(a, b)] on POSIX. *)
Definition path_join (a b : string) : string :=
  if String.prefix "/" b then b
  else if String.eqb a "" then b
  else if String.eqb (String.substring (String.length a - 1) 1 a) "/" then a +:+ b
  else a +:+ "/" +:+ b.

(** [f"epoch_{epoch}_iter_{iteration}.pt"] *)
Definition checkpoint_name (epoch iteration : nat) : string :=
  "epoch_" +:+ pretty epoch +:+ "_iter_" +:+ pretty iteration +:+ ".pt".

(** The characters of a decimal numeral. *)
Definition is_digit (c : ascii) : bool :=
  let n := nat_of_ascii c in (48 <=? n)%nat && (n <=? 57)%nat.

Fixpoint all_digits (s : string) : bool :=
  match s with
  | EmptyString => true
  | String c s' => is_digit c && all_digits s'
  end.

(** [outputs[key]] on the dict returned by [evaluate]. *)
Definition outputs_get (key : string) (outputs : gmap string artifact)
    : result artifact :=
  match outputs !! key with
  | Some v => Ok v
  | None => Err (KeyError key)
  end.

(** [d[key]] on the dict returned by a training method. *)
Fixpoint metrics_get (key : string) (m : metrics) : result scalar :=
  match m with
  | [] => Err (KeyError key)
  | (k, v) :: m' => if String.eqb k key then Ok v else metrics_get key m'
  end.

Section Fit.
Context {network state_dict : Type}.
Context `{!Torch network state_dict, !Models network, !Evaluation network}.

#[local] Abbreviation M := (M network).

(** [Trainer.__init__]: the optimizers come from the model. *)
Definition Trainer_init (gan : WGAN network) (logger : option (list event))
    (r : rng) (fs : gset string) : result (world network) :=
  '(go, co) ← configure_optimizers gan;
  Ok (mkWorld gan [] [] go co [] [] logger r fs).

(** [loss.backward(retain_graph=True)]: adds a contribution to the
    [.grad] of every parameter group the graph of the loss reaches. *)
Definition backward (loss : scalar) : M unit := fun w =>
  let g := sgraph loss in
  let contribution := [(loss, gan_model w)] in
  if reaches_generator g || reaches_critic g then
    Ok (tt, set_grads
              (if reaches_generator g then generator_grad w ++ contribution
               else generator_grad w)
              (if reaches_critic g then critic_grad w ++ contribution
               else critic_grad w) w)
  else Err (RuntimeError "element 0 of tensors does not require grad").

(** [opt.zero_grad()] *)
Definition zero_grad (o : optimizer) : M unit := fun w =>
  match bound_to o with
  | Generator => Ok (tt, set_grads [] (critic_grad w) w)
  | Critic => Ok (tt, set_grads (generator_grad w) [] w)
  end.

(** The parameter update of [opt.step()] for an optimizer with the state
    [state]: the modules and the state afterwards. Parameters whose
    [.grad] is unset are skipped. *)
Definition apply_update (o : optimizer) (state : list (gradients network))
    (w : world network) : WGAN network * list (gradients network) :=
  let gan := gan_model w in
  let upd := adam_update (learning_rate o) (weight_decay o) state in
  match bound_to o with
  | Generator =>
      match generator_grad w with
      | [] => (gan, state)
      | g => (mkWGAN (params gan) (upd g <$> generator_model gan)
                (critic_model gan), state ++ [g])
      end
  | Critic =>
      match critic_grad w with
      | [] => (gan, state)
      | g => (mkWGAN (params gan) (generator_model gan)
                (upd g <$> critic_model gan), state ++ [g])
      end
  end.

Definition stepped (o : optimizer) : optimizer :=
  mkOptimizer (bound_to o) (learning_rate o) (weight_decay o) (S (step_count o)).

(** [self.critic_optimizer.zero_grad()] and [.step()] *)
Definition critic_optimizer_zero_grad : M unit := fun w =>
  zero_grad (critic_optimizer w) w.
Definition critic_optimizer_step : M unit := fun w =>
  let o := critic_optimizer w in
  let u := apply_update o (critic_optimizer_state w) w in
  Ok (tt, set_critic_optimizer (stepped o) u.2 (set_gan_model u.1 w)).

(** [self.generator_optimizer.zero_grad()] and [.step()] *)
Definition generator_optimizer_zero_grad : M unit := fun w =>
  zero_grad (generator_optimizer w) w.
Definition generator_optimizer_step : M unit := fun w =>
  let o := generator_optimizer w in
  let u := apply_update o (generator_optimizer_state w) w in
  Ok (tt, set_generator_optimizer (stepped o) u.2 (set_gan_model u.1 w)).

(** A call of a method of [self.neptune_logger]. *)
Definition emit (method : string) (e : event) : M unit := fun w =>
  match neptune_logger w with
  | Some l => Ok (tt, set_neptune_logger (Some (l ++ [e])) w)
  | None => Err (AttributeError method)
  end.

(** [for key, value in losses.items(): log_metric(key, value.item())] *)
Fixpoint log_items (losses : metrics) : M unit :=
  match losses with
  | [] => mret tt
  | (key, v) :: rest =>
      _ ← emit "log_metric" (log_metric key (Number (value v)));
      log_items rest
  end.

(** One pass of the critic loop, lines 68 to 74. *)
Definition critic_update (b : batch) : M metrics :=
  _ ← critic_optimizer_zero_grad;
  critic_losses ← train_critic b;
  critic_total_loss ← lift (metrics_get "C/loss" critic_losses);
  _ ← backward critic_total_loss;
  _ ← critic_optimizer_step;
  mret critic_losses.

(** [for _ in range(n)] around it; the local [critic_losses] keeps the
    dict of the last pass. *)
Fixpoint critic_loop (n : nat) (b : batch) (critic_losses : option metrics)
    : M (option metrics) :=
  match n with
  | O => mret critic_losses
  | S n' =>
      l ← critic_update b;
      critic_loop n' b (Some l)
  end.

(** Lines 78 to 85. *)
Definition generator_update (b : batch) : M unit :=
  generator_losses ← train_generator b;
  generator_total_loss ← lift (metrics_get "G/loss" generator_losses);
  _ ← backward generator_total_loss;
  _ ← generator_optimizer_step;
  log_items generator_losses.

(** [if not os.path.exists(path): os.mkdir(path)]; the empty path never
    exists and cannot be made, the parent of any other new directory is
    taken to exist. *)
Definition ensure_dir (path : string) : M unit := fun w =>
  if String.eqb path "" then Err (FileNotFoundError path)
  else if bool_decide (path ∈ files w) then Ok (tt, w)
  else Ok (tt, set_files ({[path]} ∪ files w) w).

(** Lines 90 to 100. *)
Definition display (t : Trainer) (epoch iteration : nat)
    (validation_loader : option (list batch)) : M unit :=
  let name := checkpoint_name epoch iteration in
  _ ← ensure_dir (save_path t);
  let save_path_with_iter := path_join (save_path t) name in
  _ ← (fun w =>
         fs ← save_models (gan_model w) save_path_with_iter epoch (files w);
         Ok (tt, set_files fs w));
  outputs ← (fun w => draw (evaluate (gan_model w) validation_loader) w);
  h ← lift (outputs_get "histogram" outputs);
  _ ← emit "log_image" (log_image "Histograms" h);
  r ← lift (outputs_get "rocauc" outputs);
  emit "log_metric" (log_metric "rocauc" r).

(** The body of the inner [for] of [fit], lines 67 to 100. *)
Definition fit_iteration (t : Trainer) (epoch iteration : nat) (b : batch)
    (validation_loader : option (list batch))
    (critic_losses : option metrics) : M (option metrics) :=
  critic_losses ← critic_loop (Z.to_nat (critic_step t)) b critic_losses;
  _ ← generator_optimizer_zero_grad;
  _ ← (if negb (freeze_generator t) then generator_update b else mret tt);
  losses ← lift (load_local "critic_losses" critic_losses);
  _ ← log_items losses;
  r ← lift (py_mod (Z.of_nat iteration) (display_step t));
  _ ← (if (r =? 0)%Z then display t epoch iteration validation_loader
       else mret tt);
  mret critic_losses.

(** [for iteration, batch in enumerate(train_loader)] *)
Fixpoint fit_epoch (t : Trainer) (epoch iteration : nat) (bs : list batch)
    (validation_loader : option (list batch))
    (critic_losses : option metrics) : M (option metrics) :=
  match bs with
  | [] => mret critic_losses
  | b :: bs' =>
      cl ← fit_iteration t epoch iteration b validation_loader critic_losses;
      fit_epoch t epoch (S iteration) bs' validation_loader cl
  end.

(** [for epoch in range(n)], from epoch number [epoch] on. *)
Fixpoint fit_epochs (t : Trainer) (n epoch : nat)
    (train_loader validation_loader : option (list batch))
    (critic_losses : option metrics) : M (option metrics) :=
  match n with
  | O => mret critic_losses
  | S n' =>
      bs ← lift (match train_loader with
                 | Some bs => Ok bs
                 | None => Err (TypeError "'NoneType' object is not iterable")
                 end);
      cl ← fit_epoch t epoch 0 bs validation_loader critic_losses;
      fit_epochs t n' (S epoch) train_loader validation_loader cl
  end.

(** [Trainer.fit]; its parameter [start] is never read. *)
Definition fit (t : Trainer) (train_loader validation_loader : option (list batch))
    : M unit :=
  _ ← fit_epochs t (Z.to_nat (max_epoch t)) 0 train_loader validation_loader None;
  mret tt.

End Fit.

(** ** A small instance to run the definitions on

    Networks are linear maps given by one weight per input column; the
    square root is exact on squares of rationals. *)

Module Toy.

Definition network : Type := list Q.

Definition dot (w row : list Q) : Q := Qsum (zip_with Qmult w row).

Definition linear_forward (w : network) (x : tensor) : result tensor :=
  match shape x with
  | n :: rest =>
      if bool_decide (numel rest = length w) then
        Ok (mkTensor [n; 1%nat] (dot w <$> chunks (numel rest) n (data x)) no_graph)
      else Err (RuntimeError "mat1 and mat2 shapes cannot be multiplied")
  | [] => Err (RuntimeError "mat1 and mat2 shapes cannot be multiplied")
  end.

Definition linear_gradient (w : network) (x : tensor) : result tensor :=
  match shape x with
  | n :: rest =>
      if bool_decide (numel rest = length w) then
        Ok (mkTensor (shape x) (concat (replicate n w)) no_graph)
      else Err (RuntimeError "mat1 and mat2 shapes cannot be multiplied")
  | [] => Err (RuntimeError "mat1 and mat2 shapes cannot be multiplied")
  end.

Definition exact_sqrt (q : Q) : Q :=
  Qmake (Z.sqrt (Qnum q)) (Pos.sqrt (Qden q)).

#[global] Instance toy_torch : Torch network unit := {
  forward := linear_forward;
  input_gradient := linear_gradient;
  torch_load := fun _ => Ok tt;
  load_state_dict := fun net _ => Ok net;
  has_parameters := fun w => negb (bool_decide (w = []));
  adam_update := fun _ _ _ g w =>
    (fun q => q - (1 # 10) * Qsum ((fun c => value c.1) <$> g))%Q <$> w;
  torch_sqrt := exact_sqrt
}.

#[global] Instance toy_models : Models network :=
  spec_models (fun _ _ => Ok [1%Q]) (fun _ _ => Ok [1%Q]) spec_get_noise.

#[global] Instance toy_evaluation : Evaluation network := {
  save_models := spec_save_models;
  evaluate := fun _ _ r =>
    Ok ({["histogram" := Figure "histogram"; "rocauc" := Number (1 # 2)]}, r)
}.

Definition section_cfg (opt : string) : pyval :=
  VDict {["params" := VDict ∅; "optimizer" := VStr opt;
          "learning_rate" := VFloat (1 # 1000); "weight_decay" := VFloat 0;
          "checkpoint_path" := VNone]}.

(** A configuration with every recognised key. *)
Definition cfg (generator_architecture critic_architecture : string) : config :=
  {["generator_architecture" := VStr generator_architecture;
    "critic_architecture" := VStr critic_architecture;
    "generator_model_type" := VStr "regression";
    "critic_model_type" := VStr "regression";
    "device" := VStr "cpu";
    "z_dimensions" := VInt 2;
    "generator" := section_cfg "adam";
    "critic" := section_cfg "adam"]}.

(** Three features and two noise columns into one target column; a
    critic on one target column and three features. *)
Definition gan : WGAN network :=
  mkWGAN (cfg "fcn" "fcn")
    (Some [1; 0; 0; 1; 0]%Q) (Some [3; 4; 0; 0]%Q).

Definition stream : rng :=
  mkRng (fun i => 1 # Pos.of_nat (i + 2))%Q (fun i => inject_Z (Z.of_nat i)) 0.

Definition start : world network :=
  mkWorld gan [] []
    (mkOptimizer Generator (VFloat (1 # 1000)) (VFloat 0) 0)
    (mkOptimizer Critic (VFloat (1 # 1000)) (VFloat 0) 0)
    [] [] (Some []) stream ∅.

(** Two examples with three features each, and their targets. *)
Definition x : tensor := mkTensor [2; 3]%nat [1; 2; 3; 4; 5; 6]%Q no_graph.
Definition dlls : tensor := mkTensor [2]%nat [7; 9]%Q no_graph.
Definition dlls_column : tensor := mkTensor [2; 1]%nat [7; 9]%Q no_graph.

Definition trainer : Trainer := mkTrainer 1 1 2 "cpu" "checkpoints" false.

End Toy.


(** * Properties *)

(** ** Reasoning about computations that may raise *)

Lemma result_bind_ok {A B} (m : result A) (f : A -> result B) (b : B) :
  (m ≫= f) = Ok b -> exists a, m = Ok a /\ f a = Ok b.
Proof. destruct m as [a|e]; [intros H; exists a; auto | discriminate]. Qed.

Section Monad_facts.
Context {network : Type}.
Implicit Type w : world network.

Lemma bind_ok {A B} (m : M network A) (f : A -> M network B) w r :
  (m ≫= f) w = Ok r -> exists a w1, m w = Ok (a, w1) /\ f a w1 = Ok r.
Proof.
  unfold mbind, M_bind. destruct (m w) as [[a w1]|e]; [|discriminate].
  intros H. exists a, w1. auto.
Qed.

Lemma lift_ok {A} (r : result A) w a w' :
  lift r w = Ok (a, w') -> r = Ok a /\ w' = w.
Proof. destruct r; cbn; intros H; inversion H; auto. Qed.

Lemma draw_ok {A} (f : rng -> result (A * rng)) w a w' :
  draw f w = Ok (a, w') ->
  exists r, f (random w) = Ok (a, r) /\ w' = set_random r w.
Proof.
  unfold draw. destruct (f (random w)) as [[a0 r]|e]; [|discriminate].
  intros H. inversion H. eauto.
Qed.

Lemma ret_ok {A} (a a' : A) w w' :
  (mret a : M network A) w = Ok (a', w') -> a' = a /\ w' = w.
Proof. cbv. intros H. inversion H. auto. Qed.

Lemma get_self_ok w g w' :
  get_self w = Ok (g, w') -> g = gan_model w /\ w' = w.
Proof. cbv. intros H. inversion H. auto. Qed.

End Monad_facts.

(** Splits a hypothesis [(x ← m; k) w = Ok r] into the run of [m] and the
    run of [k]; a pure step leaves the world as it is. *)
Tactic Notation "step_in" hyp(H) "as" ident(a) ident(Ha) :=
  let w1 := fresh "w" in
  apply bind_ok in H; destruct H as (a & w1 & Ha & H);
  first
    [ apply lift_ok in Ha; destruct Ha as [Ha ->]
    | apply get_self_ok in Ha; destruct Ha as [-> ->]
    | idtac ].

(** ** Construction *)

Lemma lower_ascii_not_upper (c : ascii) : is_upper (lower_ascii c) = false.
Proof. destruct c as [[] [] [] [] [] [] [] []]; vm_compute; reflexivity. Qed.

Lemma lower_head_not_upper (s : string) (c : ascii) (rest : string) :
  lower s = String c rest -> is_upper c = false.
Proof.
  destruct s as [|c0 s0]; cbn; [discriminate|].
  intros H. inversion H. apply lower_ascii_not_upper.
Qed.

Lemma lower_ne_NODE (s : string) : String.eqb (lower s) "NODE" = false.
Proof.
  apply String.eqb_neq. intros H.
  apply lower_head_not_upper in H. discriminate.
Qed.

Lemma lower_ne_FCN (s : string) : String.eqb (lower s) "FCN" = false.
Proof.
  apply String.eqb_neq. intros H.
  apply lower_head_not_upper in H. discriminate.
Qed.

Section Construction_facts.
Context {network state_dict : Type}.
Context `{!Torch network state_dict, !Models network}.

(** What [create_generator] does on every instance: the result depends
    on the two architecture entries only, and is never a network. *)
Lemma create_generator_raises (self : WGAN network) :
  create_generator self =
    match params self !! "generator_architecture" with
    | None => Err (KeyError "generator_architecture")
    | Some (VStr g) =>
        match params self !! "critic_architecture" with
        | None => Err (KeyError "critic_architecture")
        | Some (VStr _) =>
            Err (NameError "Unknown generator architecture: {}" (Some (VStr g)))
        | Some _ => Err (AttributeError "lower")
        end
    | Some _ => Err (AttributeError "lower")
    end.
Proof.
  unfold create_generator, getitem.
  destruct (params self !! "generator_architecture") as [[| | | |g|]|] eqn:Eg;
    cbn; try reflexivity.
  rewrite lower_ne_NODE. cbn.
  destruct (params self !! "critic_architecture") as [[| | | |c|]|] eqn:Ec;
    cbn; try reflexivity.
  rewrite lower_ne_FCN. cbn. reflexivity.
Qed.

(** C3. For every configuration [WGAN.__init__] raises: the lower-cased
    generator architecture is never "NODE", the lower-cased critic
    architecture is never "FCN", and when both entries are strings the
    error is the NameError of the else branch of [create_generator]. *)
Theorem init_always_raises (cfg : config) :
  exists e : exn,
    @init network state_dict _ _ cfg = Err e /\
    (forall g c : string,
        cfg !! "generator_architecture" = Some (VStr g) ->
        cfg !! "critic_architecture" = Some (VStr c) ->
        String.eqb (lower g) "NODE" = false /\
        String.eqb (lower c) "FCN" = false /\
        e = NameError "Unknown generator architecture: {}" (Some (VStr g))).
Proof.
  unfold init. rewrite create_generator_raises. cbn [params].
  destruct (cfg !! "generator_architecture") as [[| | | |g|]|] eqn:Eg;
    try (eexists; split; [reflexivity | intros; discriminate]).
  destruct (cfg !! "critic_architecture") as [[| | | |c|]|] eqn:Ec;
    try (eexists; split; [reflexivity | intros; discriminate]).
  eexists; split; [reflexivity|].
  intros g' c' Hg Hc. inversion Hg; subst.
  auto using lower_ne_NODE, lower_ne_FCN.
Qed.

(** The critic dispatch compares with lower-case literals: any spelling
    of "node" reaches the node factory. *)
Lemma create_critic_node (self : WGAN network) (name : string) (c mt path : pyval) :
  params self !! "critic_architecture" = Some (VStr name) ->
  lower name = "node" ->
  params self !! "critic" = Some c ->
  params self !! "critic_model_type" = Some mt ->
  subscript c "checkpoint_path" = Ok path ->
  truthy path = false ->
  create_critic self =
    (net ← create_node_model c mt;
     Ok (mkWGAN (params self) (generator_model self) (Some net))).
Proof.
  intros Ha Hl Hc Hmt Hp Ht. unfold create_critic, getitem, load_checkpoint.
  rewrite Ha. cbn. rewrite Hl. cbn. rewrite Hc, Hmt. cbn.
  destruct (create_node_model c mt); cbn; [|reflexivity].
  rewrite Hp. cbn. rewrite Ht. reflexivity.
Qed.

Lemma create_critic_fcn (self : WGAN network) (name : string) (c mt path : pyval) :
  params self !! "critic_architecture" = Some (VStr name) ->
  lower name = "fcn" ->
  params self !! "critic" = Some c ->
  params self !! "critic_model_type" = Some mt ->
  subscript c "checkpoint_path" = Ok path ->
  truthy path = false ->
  create_critic self =
    (net ← create_fcn_model c mt;
     Ok (mkWGAN (params self) (generator_model self) (Some net))).
Proof.
  intros Ha Hl Hc Hmt Hp Ht. unfold create_critic, getitem, load_checkpoint.
  rewrite Ha. cbn. rewrite Hl. cbn. rewrite Hc, Hmt. cbn.
  destruct (create_fcn_model c mt); cbn; [|reflexivity].
  rewrite Hp. cbn. rewrite Ht. reflexivity.
Qed.

(** Any other name is refused before a factory is called. *)
Lemma create_critic_unknown (self : WGAN network) (name : string) :
  params self !! "critic_architecture" = Some (VStr name) ->
  lower name <> "node" -> lower name <> "fcn" ->
  create_critic self
  = Err (NameError "Unknown critic architecture: {}" (Some (VStr name))).
Proof.
  intros Ha Hn Hf. unfold create_critic, getitem. rewrite Ha. cbn.
  apply String.eqb_neq in Hn, Hf. rewrite Hn, Hf. reflexivity.
Qed.

(** C2. With the generator architecture "node" and the critic
    architecture "fcn", both in the enumerated set, [create_generator]
    raises the unknown-architecture error and builds no network. *)
Theorem create_generator_rejects_node :
  create_generator (mkWGAN (Toy.cfg "node" "fcn") None None)
  = Err (NameError "Unknown generator architecture: {}" (Some (VStr "node")))
  /\ is_ok (@init network state_dict _ _ (Toy.cfg "node" "fcn")) = false.
Proof.
  unfold init. rewrite create_generator_raises. split; reflexivity.
Qed.

End Construction_facts.

(** The configuration of the examples names the architectures "node" and
    "fcn"; construction raises the NameError. *)
Lemma init_always_raises_witness :
  exists e : exn,
    @init Toy.network unit _ _ (Toy.cfg "node" "fcn") = Err e /\
    e = NameError "Unknown generator architecture: {}" (Some (VStr "node")).
Proof.
  destruct (@init_always_raises Toy.network unit _ _ (Toy.cfg "node" "fcn"))
    as (e & He & Hs).
  exists e. split; [exact He|].
  apply (Hs "node" "fcn"); reflexivity.
Defined.

(** ** Shapes *)

Lemma cat1_matrix (a b : tensor) (n ca cb : nat) :
  shape a = [n; ca] -> shape b = [n; cb] ->
  exists t, cat1 a b = Ok t /\ shape t = [n; (ca + cb)%nat] /\
            graph t = join (graph a) (graph b).
Proof.
  intros Ha Hb. unfold cat1. rewrite Ha, Hb.
  rewrite bool_decide_eq_true_2 by auto.
  eexists. split; [reflexivity|]. split; reflexivity.
Qed.

Lemma cat1_graph (a b t : tensor) :
  cat1 a b = Ok t -> graph t = join (graph a) (graph b).
Proof.
  unfold cat1. intros Hrun.
  repeat (case_match; try discriminate); inversion Hrun; reflexivity.
Qed.

Lemma unsqueeze1_vector (t : tensor) (n : nat) :
  shape t = [n] ->
  exists t', unsqueeze1 t = Ok t' /\ shape t' = [n; 1%nat] /\ data t' = data t.
Proof.
  intros H. unfold unsqueeze1. rewrite H. eexists. repeat split; reflexivity.
Qed.

(** ** The per-batch computations *)

Section Method_facts.
Context {network state_dict : Type}.
Context `{!Torch network state_dict, !Models network}.
Implicit Type w : world network.

Lemma call_ok (leaves : deps) (net : network) (x y : tensor) :
  call leaves net x = Ok y ->
  exists y0, forward net x = Ok y0 /\ shape y = shape y0 /\
             data y = data y0 /\
             graph y = join (graph x) (join leaves (saved_input x)).
Proof.
  unfold call. intros H. apply result_bind_ok in H as (y0 & Hf & H).
  inversion H; subst. exists y0. auto.
Qed.

Lemma getitem_ok (d : config) (key : string) (v : pyval) :
  getitem d key = Ok v -> d !! key = Some v.
Proof. unfold getitem. destruct (d !! key); intros H; inversion H; auto. Qed.

Lemma getattr_ok {A} (name : string) (o : option A) (a : A) :
  getattr name o = Ok a -> o = Some a.
Proof. destruct o; intros H; inversion H; auto. Qed.

Lemma subscript_ok (v : pyval) (key : string) (x : pyval) :
  subscript v key = Ok x -> exists d, v = VDict d /\ d !! key = Some x.
Proof.
  destruct v; try discriminate. cbn. intros H. apply getitem_ok in H. eauto.
Qed.

Lemma is_adam_true (v : pyval) : is_adam v = true -> v = VStr "adam".
Proof.
  destruct v; try discriminate. cbn. intros H.
  apply String.eqb_eq in H. congruence.
Qed.

(** The Adam constructor returns exactly for a learning rate and a weight
    decay that are numbers not below zero and a module with a
    parameter. *)
Lemma Adam_ok (bound : role) (net : network) (lr wd : pyval) (o : optimizer) :
  Adam bound net lr wd = Ok o <->
  nonnegative lr = Ok true /\ nonnegative wd = Ok true /\
  has_parameters net = true /\ o = mkOptimizer bound lr wd 0.
Proof.
  unfold Adam. split.
  - intros H. destruct (nonnegative lr) as [[]|]; try discriminate.
    destruct (nonnegative wd) as [[]|]; try discriminate.
    cbn in H. destruct (has_parameters net); [|discriminate].
    injection H as <-. auto.
  - intros (-> & -> & Hp & ->). cbn. rewrite Hp. reflexivity.
Qed.

(** Everything a successful [configure_optimizers] went through. *)
Lemma configure_optimizers_inv (self : WGAN network) (go co : optimizer) :
  configure_optimizers self = Ok (go, co) ->
  exists g c lrg wdg lrc wdc gm cm,
    params self !! "generator" = Some (VDict g) /\
    params self !! "critic" = Some (VDict c) /\
    g !! "optimizer" = Some (VStr "adam") /\
    c !! "optimizer" = Some (VStr "adam") /\
    g !! "learning_rate" = Some lrg /\ g !! "weight_decay" = Some wdg /\
    c !! "learning_rate" = Some lrc /\ c !! "weight_decay" = Some wdc /\
    generator_model self = Some gm /\ critic_model self = Some cm /\
    Adam Generator gm lrg wdg = Ok go /\
    Adam Critic cm lrc wdc = Ok co.
Proof.
  unfold configure_optimizers. intros H.
  apply result_bind_ok in H as (g0 & Hg0 & H). apply getitem_ok in Hg0.
  apply result_bind_ok in H as (ng & Hng & H).
  apply subscript_ok in Hng as (g & -> & Hng).
  apply result_bind_ok in H as (go' & Hgo & H).
  destruct (is_adam ng) eqn:Eg; [|discriminate]. apply is_adam_true in Eg. subst ng.
  apply result_bind_ok in Hgo as (gm & Hgm & Hgo). apply getattr_ok in Hgm.
  apply result_bind_ok in Hgo as (g1 & Hg1 & Hgo). apply getitem_ok in Hg1.
  rewrite Hg0 in Hg1. injection Hg1 as <-.
  apply result_bind_ok in Hgo as (lrg & Hlrg & Hgo). apply getitem_ok in Hlrg.
  apply result_bind_ok in Hgo as (g2 & Hg2 & Hgo). apply getitem_ok in Hg2.
  rewrite Hg0 in Hg2. injection Hg2 as <-.
  apply result_bind_ok in Hgo as (wdg & Hwdg & Hgo). apply getitem_ok in Hwdg.
  apply result_bind_ok in H as (c0 & Hc0 & H). apply getitem_ok in Hc0.
  apply result_bind_ok in H as (nc & Hnc & H).
  apply subscript_ok in Hnc as (c & -> & Hnc).
  apply result_bind_ok in H as (co' & Hco & H).
  destruct (is_adam nc) eqn:Ec; [|discriminate]. apply is_adam_true in Ec. subst nc.
  apply result_bind_ok in Hco as (cm & Hcm & Hco). apply getattr_ok in Hcm.
  apply result_bind_ok in Hco as (c1 & Hc1 & Hco). apply getitem_ok in Hc1.
  rewrite Hc0 in Hc1. injection Hc1 as <-.
  apply result_bind_ok in Hco as (lrc & Hlrc & Hco). apply getitem_ok in Hlrc.
  apply result_bind_ok in Hco as (c2 & Hc2 & Hco). apply getitem_ok in Hc2.
  rewrite Hc0 in Hc2. injection Hc2 as <-.
  apply result_bind_ok in Hco as (wdc & Hwdc & Hco). apply getitem_ok in Hwdc.
  injection H as <- <-.
  exists g, c, lrg, wdg, lrc, wdc, gm, cm. repeat split; auto.
Qed.

(** Everything a successful run of lines 88 to 99 went through. *)
Lemma build_samples_ok (x dlls real generated : tensor) w w' :
  build_samples (x, dlls) w = Ok ((real, generated), w') ->
  exists d n z noise r noized_x g out,
    unsqueeze1 dlls = Ok d /\ shape0 x = Ok n /\
    params (gan_model w) !! "z_dimensions" = Some z /\
    get_noise n z (random w) = Ok (noise, r) /\
    cat1 x noise = Ok noized_x /\ cat1 d x = Ok real /\
    generator_model (gan_model w) = Some g /\
    call generator_leaves g noized_x = Ok out /\
    cat1 out x = Ok generated /\
    w' = set_random r w.
Proof.
  unfold build_samples, to_float. intros H.
  step_in H as self Hs. step_in H as dev1 Hd1. step_in H as dev2 Hd2.
  step_in H as d Hd. step_in H as n Hn. step_in H as z Hz.
  apply bind_ok in H as (noise & w1 & Hnoise & H).
  apply draw_ok in Hnoise as (r & Hnoise & ->).
  step_in H as dev3 Hd3. step_in H as noized_x Hnx.
  step_in H as real_full Hreal. step_in H as g Hg.
  step_in H as out Hout. step_in H as gen Hgen.
  apply ret_ok in H as [H ->]. inversion H; subst.
  apply getitem_ok in Hz. apply getattr_ok in Hg.
  exists d, n, z, noise, r, noized_x, g, out. repeat split; auto.
Qed.

Lemma build_samples_returns (b : batch) w (n f k : nat) (r : rng) :
  samples_ready b w n f k r ->
  exists real generated,
    build_samples b w = Ok ((real, generated), set_random r w) /\
    shape real = [n; (1 + f)%nat] /\ shape generated = [n; (1 + f)%nat] /\
    graph real = join (graph (snd b)) (graph (fst b)).
Proof.
  destruct b as [x dlls]. unfold samples_ready. cbn [fst snd].
  intros (Hx & Hd & [dev Hdev] & (z & noise & Hz & Hnoise & Hns)
          & (g & Hg & Hfw)).
  destruct (unsqueeze1_vector dlls n Hd) as (d & Hud & Hds & _).
  destruct (cat1_matrix x noise n f k Hx Hns) as (nx & Hnx & Hnxs & _).
  destruct (cat1_matrix d x n 1 f Hds Hx) as (real & Hreal & Hreals & Hrg).
  destruct (Hfw nx Hnxs) as (out & Hout & Houts).
  destruct (cat1_matrix (mkTensor (shape out) (data out)
                           (join (graph nx)
                              (join generator_leaves (saved_input nx)))) x n 1 f
              Houts Hx) as (gen & Hgen & Hgens & _).
  exists real, gen.
  split; [|split; [exact Hreals | split; [exact Hgens|]]].
  - unfold build_samples, to_float, get_self, getitem, shape0, call, draw.
    unfold mbind, M_bind, lift. cbn.
    rewrite Hdev, Hud, Hx, Hz, Hnoise. cbn.
    rewrite Hnx, Hreal. cbn. rewrite Hg. cbn.
    unfold result_bind. rewrite Hout, Hgen. reflexivity.
  - rewrite Hrg. unfold unsqueeze1 in Hud. rewrite Hd in Hud.
    inversion Hud. reflexivity.
Qed.

End Method_facts.

Section Sample_facts.
Context {network state_dict : Type}.
Context `{!Torch network state_dict, !Models network}.
Implicit Type w : world network.

(** C10, amended. For features of shape [n, f] and targets of shape [n],
    with noise of shape [n, k] and a generator that returns one column,
    lines 88 to 99 (and 111 to 122) return a real and a generated sample
    that both have the shape [n, 1 + f]. *)
Theorem samples_share_shape (b : batch) w (n f k : nat) (r : rng) :
  samples_ready b w n f k r ->
  exists real generated,
    build_samples b w = Ok ((real, generated), set_random r w) /\
    shape real = [n; (1 + f)%nat] /\
    shape generated = [n; (1 + f)%nat].
Proof.
  intros H. destruct (build_samples_returns b w n f k r H)
    as (real & gen & Hrun & Hr & Hg & _).
  exists real, gen. auto.
Qed.

Lemma is_ok_true {A} (r : result A) : is_ok r = true -> exists a, r = Ok a.
Proof. destruct r; [eauto | discriminate]. Qed.

(** C9. Whenever [train_generator] returns, it has drawn fresh noise for
    the examples of the batch, run the generator on the features followed
    by the noise, joined the generator's output with the features into
    the generated sample and run the critic on that sample; the dict
    holds under 'G/loss' the negated mean of these scores, a loss whose
    graph reaches the generator's parameters; and nothing but the state
    of the random generator has changed, so the critic module, the
    gradients of its parameters and its optimizer are as before. It does
    return on every batch of features [n, f] and targets [n] that the
    two networks accept. *)
Theorem train_generator_loss (b : batch) w :
  (forall m w',
      train_generator b w = Ok (m, w') ->
      exists n z noise r noized_x g out generated c scores loss,
        shape0 b.1 = Ok n /\
        params (gan_model w) !! "z_dimensions" = Some z /\
        get_noise n z (random w) = Ok (noise, r) /\
        cat1 b.1 noise = Ok noized_x /\
        generator_model (gan_model w) = Some g /\
        call generator_leaves g noized_x = Ok out /\
        cat1 out b.1 = Ok generated /\
        critic_model (gan_model w) = Some c /\
        call critic_leaves c generated = Ok scores /\
        m = [("G/loss", loss)] /\
        value loss = (- Qmean (data scores))%Q /\
        reaches_generator (sgraph loss) = true /\
        w' = set_random r w /\
        critic_model (gan_model w') = critic_model (gan_model w) /\
        critic_grad w' = critic_grad w /\
        critic_optimizer w' = critic_optimizer w /\
        critic_optimizer_state w' = critic_optimizer_state w) /\
  (forall n f k r,
      samples_ready b w n f k r -> critic_ready w n f ->
      is_ok (train_generator b w) = true).
Proof.
  split.
  - intros m w' H. unfold train_generator in H.
    apply bind_ok in H as ([real gen] & w1 & Hb & H).
    step_in H as self Hs. step_in H as c Hc. step_in H as pred Hp.
    apply ret_ok in H as [-> ->].
    apply getattr_ok in Hc.
    destruct b as [x dlls].
    pose proof (build_samples_ok _ _ _ _ _ _ Hb)
      as (d & n & z & noise & r & nx & g & out
          & _ & Hn & Hz & Hnoise & Hnx & _ & Hg & Hout & Hgen & ->).
    cbn [gan_model set_random] in Hc.
    exists n, z, noise, r, nx, g, out, gen, c, pred, (sneg (mean pred)).
    cbn [fst]. repeat split; auto.
    apply cat1_graph in Hgen.
    apply call_ok in Hout as (o0 & _ & _ & _ & Hog).
    apply call_ok in Hp as (p0 & _ & _ & _ & Hpg).
    cbn. rewrite Hpg, Hgen, Hog. cbn. rewrite ?orb_true_r. reflexivity.
  - intros n f k r Hs (c & Hc & Hacc).
    destruct (build_samples_returns b w n f k r Hs)
      as (real & gen & Hrun & _ & Hg & _).
    destruct (is_ok_true _ (Hacc gen Hg)) as (s & Hfs).
    unfold train_generator, mbind, M_bind. rewrite Hrun.
    cbn. rewrite Hc. cbn. unfold call, mbind, result_bind. rewrite Hfs.
    reflexivity.
Qed.

(** C5. [generate] reads the local [dlls] before any assignment to it:
    on every batch and in every world it raises, the UnboundLocalError
    as soon as the configuration names a device. *)
Theorem generate_raises (b : batch) w :
  generate b w =
    match params (gan_model w) !! "device" with
    | Some _ => Err (UnboundLocalError "dlls")
    | None => Err (KeyError "device")
    end.
Proof.
  destruct b as [x dlls]. unfold generate, get_self, getitem, mbind, M_bind, lift.
  destruct (params (gan_model w) !! "device"); reflexivity.
Qed.

End Sample_facts.

(** Two examples with three features and two noise columns. *)
Lemma toy_samples_ready :
  samples_ready (Toy.x, Toy.dlls) Toy.start 2 3 2 (advance 4 Toy.stream).
Proof.
  unfold samples_ready. cbn [fst snd].
  split; [reflexivity|]. split; [reflexivity|].
  split; [eexists; reflexivity|].
  split.
  - eexists _, _. repeat split; reflexivity.
  - eexists. split; [reflexivity|].
    intros t Ht. cbn. unfold Toy.linear_forward. rewrite Ht.
    eexists. split; reflexivity.
Defined.

Lemma toy_critic_ready : critic_ready Toy.start 2 3.
Proof.
  eexists. split; [reflexivity|].
  intros t Ht. cbn. unfold Toy.linear_forward. rewrite Ht. reflexivity.
Defined.

Lemma samples_share_shape_witness :
  exists real generated,
    build_samples (Toy.x, Toy.dlls) Toy.start
      = Ok ((real, generated), set_random (advance 4 Toy.stream) Toy.start) /\
    shape real = [2; 4]%nat /\ shape generated = [2; 4]%nat.
Proof.
  exact (samples_share_shape (Toy.x, Toy.dlls) Toy.start 2 3 2
           (advance 4 Toy.stream) toy_samples_ready).
Defined.

(** C10 as stated fails on a target of shape [2, 1]: [unsqueeze] makes it
    three-dimensional and the concatenation with the features raises. *)
Lemma column_target_is_rejected :
  shape Toy.x = [2; 3]%nat /\ shape Toy.dlls_column = [2; 1]%nat /\
  build_samples (Toy.x, Toy.dlls_column) Toy.start
    = Err (RuntimeError "Tensors must have same number of dimensions") /\
  train_generator (Toy.x, Toy.dlls_column) Toy.start
    = Err (RuntimeError "Tensors must have same number of dimensions") /\
  train_critic (Toy.x, Toy.dlls_column) Toy.start
    = Err (RuntimeError "Tensors must have same number of dimensions").
Proof. repeat split; vm_compute; reflexivity. Qed.

(** On the two examples the noise is [[0, 1], [2, 3]], the generator
    returns 1 and 6, the critic scores the generated sample 7 and 34,
    and 'G/loss' is -41/2. *)
Lemma train_generator_loss_witness :
  is_ok (train_generator (Toy.x, Toy.dlls) Toy.start) = true /\
  exists m w' loss,
    train_generator (Toy.x, Toy.dlls) Toy.start = Ok (m, w') /\
    m = [("G/loss", loss)] /\
    (value loss == - (41 # 2))%Q /\
    critic_model (gan_model w') = Some [3; 4; 0; 0]%Q /\
    critic_optimizer w' = critic_optimizer Toy.start.
Proof.
  destruct (train_generator_loss (Toy.x, Toy.dlls) Toy.start) as [Hsound Hruns].
  pose proof (Hruns 2%nat 3%nat 2%nat _ toy_samples_ready toy_critic_ready) as Hok.
  split; [exact Hok|].
  destruct (train_generator (Toy.x, Toy.dlls) Toy.start) as [[m w']|e] eqn:E;
    [|discriminate].
  destruct (Hsound m w' eq_refl)
    as (n & z & noise & r & nx & g & out & gen & c & scores & loss & H).
  destruct H as (Hn & Hz & Hnoise & Hnx & Hg & Hout & Hgen & Hc & Hsc & Hm
                 & Hv & _ & _ & Hcm & _ & Ho & _).
  vm_compute in Hn. injection Hn as <-.
  vm_compute in Hz. injection Hz as <-.
  vm_compute in Hnoise. injection Hnoise as <- <-.
  vm_compute in Hnx. injection Hnx as <-.
  vm_compute in Hg. injection Hg as <-.
  vm_compute in Hout. injection Hout as <-.
  vm_compute in Hgen. injection Hgen as <-.
  vm_compute in Hc. injection Hc as <-.
  vm_compute in Hsc. injection Hsc as <-.
  exists m, w', loss. split; [reflexivity|]. split; [exact Hm|].
  split; [rewrite Hv; vm_compute; reflexivity|].
  split; [rewrite Hcm; reflexivity | exact Ho].
Defined.

(** ** The critic loss *)

Section Critic_facts.
Context {network state_dict : Type}.
Context `{!Torch network state_dict, !Models network}.
Implicit Type w : world network.

(** Everything a successful run of [train_critic] went through. *)
Lemma train_critic_ok (b : batch) w (m : metrics) w' :
  train_critic b w = Ok (m, w') ->
  exists real generated w1 c fake_pred real_pred n epsilon gradient gp,
    build_samples b w = Ok ((real, generated), w1) /\
    critic_model (gan_model w1) = Some c /\
    call critic_leaves c (detach generated) = Ok fake_pred /\
    call critic_leaves c real = Ok real_pred /\
    shape0 real = Ok n /\
    expand (torch_rand n 1 (random w1)).1 (shape real) = Ok epsilon /\
    get_gradient c real generated VNone epsilon = Ok gradient /\
    gradient_penalty gradient = Ok gp /\
    m = [("C/loss", sadd (ssub (mean fake_pred) (mean fake_pred)) (smul 10 gp));
         ("C/fake_pred", mean fake_pred);
         ("C/real_pred", mean real_pred);
         ("gradient penalty", gp)] /\
    w' = set_random (torch_rand n 1 (random w1)).2 w1.
Proof.
  unfold train_critic. intros H.
  apply bind_ok in H as ([real gen] & w1 & Hb & H).
  step_in H as self Hs. step_in H as c Hc. step_in H as fake Hfake.
  step_in H as c2 Hc2. step_in H as realp Hrealp. step_in H as n Hn.
  apply bind_ok in H as (eps0 & w2 & He0 & H).
  apply draw_ok in He0 as (r & He0 & ->). inversion He0; subst.
  step_in H as eps He. step_in H as dev Hdev. step_in H as c3 Hc3.
  step_in H as gradient Hgrad. step_in H as gp Hgp.
  apply ret_ok in H as [-> ->].
  apply getattr_ok in Hc, Hc2, Hc3. cbn [gan_model set_random] in *.
  rewrite Hc in Hc2, Hc3. injection Hc2 as <-. injection Hc3 as <-.
  exists real, gen, w1, c, fake, realp, n, eps, gradient, gp.
  repeat split; auto.
Qed.

(** What the code returns under 'C/loss': ten times the penalty, the
    two score means cancel. *)
Lemma critic_loss_is_ten_penalties (b : batch) w (m : metrics) w' :
  train_critic b w = Ok (m, w') ->
  exists loss gp,
    metrics_get "C/loss" m = Ok loss /\
    metrics_get "gradient penalty" m = Ok gp /\
    (value loss == 10 * value gp)%Q.
Proof.
  intros H. apply train_critic_ok in H
    as (real & gen & w1 & c & fake & realp & n & eps & gradient & gp & H).
  destruct H as (_ & _ & _ & _ & _ & _ & _ & _ & -> & _).
  eexists _, gp. split; [reflexivity|]. split; [reflexivity|].
  cbn. ring.
Qed.

End Critic_facts.

(** C1. On the two examples the critic scores the real sample 34 and the
    generated sample 41/2 on average and the penalty is 16; 'C/loss' is
    160, not 34 - 41/2 + 160. *)
Theorem critic_loss_drops_real_scores :
  exists m w' loss fake_mean real_mean gp,
    train_critic (Toy.x, Toy.dlls) Toy.start = Ok (m, w') /\
    metrics_get "C/loss" m = Ok loss /\
    metrics_get "C/fake_pred" m = Ok fake_mean /\
    metrics_get "C/real_pred" m = Ok real_mean /\
    metrics_get "gradient penalty" m = Ok gp /\
    (value real_mean == 34)%Q /\ (value fake_mean == 41 # 2)%Q /\
    (value gp == 16)%Q /\ (value loss == 160)%Q /\
    ~ (value loss == value real_mean - value fake_mean + 10 * value gp)%Q.
Proof.
  destruct (train_critic (Toy.x, Toy.dlls) Toy.start) as [[m w']|e] eqn:E;
    [|vm_compute in E; discriminate].
  vm_compute in E. injection E as <- <-.
  eexists _, _, _, _, _, _. split; [reflexivity|].
  repeat split; try reflexivity; vm_compute; congruence.
Qed.

(** ** The gradient penalty *)

Lemma Qsum_nonneg (l : list Q) : Forall (fun q => 0 <= q)%Q l -> (0 <= Qsum l)%Q.
Proof.
  induction 1 as [|q l Hq _ IH]; cbn; [apply Qle_refl|].
  apply Qle_trans with (0 + 0)%Q; [apply Qle_refl|].
  apply Qplus_le_compat; assumption.
Qed.

Lemma Qmean_nonneg (l : list Q) : Forall (fun q => 0 <= q)%Q l -> (0 <= Qmean l)%Q.
Proof.
  intros H. unfold Qmean, Qdiv.
  apply Qmult_le_0_compat; [apply Qsum_nonneg, H|].
  apply Qinv_le_0_compat.
  change 0%Q with (inject_Z 0). rewrite <- Zle_Qle. lia.
Qed.

Lemma square_nonneg (q : Q) : (0 <= square q)%Q.
Proof. unfold square. nra. Qed.

Lemma penalty_terms_nonneg `{!Torch network state_dict} (rows : list (list Q)) :
  Forall (fun q => 0 <= q)%Q (penalty_term <$> rows).
Proof.
  apply Forall_fmap, Forall_forall. intros row _. apply square_nonneg.
Qed.

(** A column of [n] entries, expanded to [c] columns, repeats each entry
    [c] times. *)
Lemma chunks_singletons (d : list Q) : chunks 1 (length d) d = (fun e => [e]) <$> d.
Proof. induction d as [|e d IH]; cbn; [reflexivity|]. rewrite drop_0, IH. reflexivity. Qed.

Lemma expand_column (n c : nat) (d : list Q) (g : deps) :
  length d = n ->
  expand (mkTensor [n; 1%nat] d g) [n; c]
  = Ok (mkTensor [n; c] (concat ((fun e => replicate c e) <$> d)) g).
Proof.
  intros <-. unfold expand. cbn [shape data graph length Nat.sub replicate app].
  cbn [expandable].
  rewrite (bool_decide_eq_true_2 (length d = length d)) by reflexivity.
  rewrite (bool_decide_eq_true_2 (1%nat = 1%nat)) by reflexivity.
  rewrite orb_true_r. cbn [orb andb].
  f_equal. f_equal. cbn [expand_data numel foldr].
  rewrite (bool_decide_eq_true_2 (length d = length d)) by reflexivity.
  rewrite Nat.mul_1_r, chunks_singletons, <- list_fmap_compose.
  f_equal. apply list_fmap_ext. intros _ e _. cbn.
  case_bool_decide as Hc; cbn; [subst c; reflexivity|].
  clear Hc. induction c as [|c IH]; cbn; [reflexivity|].
  f_equal. exact IH.
Qed.

Section Penalty_facts.
Context {network state_dict : Type}.
Context `{!Torch network state_dict}.
Variables node fcn : pyval -> pyval -> result network.
Variable noise : nat -> pyval -> rng -> result (tensor * rng).
Implicit Type w : world network.

#[local] Abbreviation helpers := (spec_models node fcn noise).

Lemma spec_get_gradient_ok (c : network) (real fake epsilon gradient : tensor) (l : pyval) :
  spec_get_gradient c real fake l epsilon = Ok gradient ->
  exists mixed g0,
    shape real = shape fake /\ shape epsilon = shape real /\
    shape mixed = shape real /\
    data mixed = mix (data epsilon) (data real) (data fake) /\
    graph mixed = join (graph epsilon) (join (graph real) (graph fake)) /\
    input_gradient c mixed = Ok g0 /\
    shape gradient = shape g0 /\ data gradient = data g0 /\
    graph gradient
      = without_generator
          (join (graph mixed) (join critic_leaves (saved_input mixed))).
Proof.
  unfold spec_get_gradient, interpolate. intros H.
  case_bool_decide as Hs; [|discriminate]. destruct Hs as [Hs1 Hs2].
  cbn in H. apply result_bind_ok in H as (scores & Hsc & H).
  apply result_bind_ok in H as (g0 & Hg0 & H).
  apply call_ok in Hsc as (s0 & _ & _ & _ & Hgr).
  injection H as <-. cbn [shape data graph].
  exists (mkTensor (shape real) (mix (data epsilon) (data real) (data fake))
            (join (graph epsilon) (join (graph real) (graph fake)))), g0.
  cbn [shape data graph]. rewrite Hgr. cbn [graph]. repeat split; auto.
Qed.

(** C8. In every successful run of [train_critic] with the two helpers
    as described: epsilon holds one draw of [torch.rand] per example,
    repeated across the columns of the real sample, and lies in [0, 1)
    when the draws of [torch.rand] do; the critic is
    differentiated at epsilon * real + (1 - epsilon) * generated; the
    entry 'gradient penalty' is the mean over the examples of
    (Euclidean norm of the example's gradient - 1) squared, and it is
    not negative. *)
Theorem gradient_penalty_value (b : batch) w (m : metrics) w' :
  @train_critic network state_dict _ helpers b w = Ok (m, w') ->
  exists real generated w1 c n epsilon mixed gradient gp,
    @build_samples network state_dict _ helpers b w = Ok ((real, generated), w1) /\
    critic_model (gan_model w1) = Some c /\
    shape0 real = Ok n /\
    expand (torch_rand n 1 (random w1)).1 (shape real) = Ok epsilon /\
    (forall cols, shape real = [n; cols] ->
       data epsilon =
         concat ((fun i => replicate cols (uniform_draws (random w1) i))
                   <$> seq (cursor (random w1)) n)) /\
    (forall cols, shape real = [n; cols] ->
       (forall i, 0 <= uniform_draws (random w1) i < 1)%Q ->
       Forall (fun e => 0 <= e < 1)%Q (data epsilon)) /\
    shape mixed = shape real /\
    data mixed = mix (data epsilon) (data real) (data generated) /\
    input_gradient c mixed = Ok gradient /\
    metrics_get "gradient penalty" m = Ok gp /\
    value gp = Qmean ((fun row => square (torch_sqrt (Qsum (square <$> row)) - 1))
                        <$> examples gradient) /\
    (0 <= value gp)%Q.
Proof.
  intros H. apply train_critic_ok in H
    as (real & gen & w1 & c & fake & realp & n & eps & gradient & gp & H).
  destruct H as (Hb & Hc & _ & _ & Hn & He & Hg & Hgp & -> & _).
  cbn [get_gradient gradient_penalty spec_models] in Hg, Hgp.
  apply spec_get_gradient_ok in Hg
    as (mixed & g0 & _ & _ & Hms & Hmd & _ & Hg0 & Hgs & Hgd & _).
  unfold spec_gradient_penalty in Hgp. inversion Hgp; subst gp. clear Hgp.
  exists real, gen, w1, c, n, eps, mixed, g0, 
    (mkScalar (Qmean (penalty_term <$> examples gradient)) (graph gradient)).
  assert (Hex : examples gradient = examples g0).
  { unfold examples. rewrite Hgs, Hgd. reflexivity. }
  assert (Heps : forall cols, shape real = [n; cols] ->
            data eps = concat ((fun i => replicate cols (uniform_draws (random w1) i))
                                 <$> seq (cursor (random w1)) n)).
  { intros cols Hs. rewrite Hs in He. cbn [torch_rand fst] in He.
    rewrite expand_column in He.
    - inversion He. cbn [data]. rewrite Nat.mul_1_r, <- list_fmap_compose.
      reflexivity.
    - rewrite length_fmap, length_seq. lia. }
  repeat split; auto.
  - intros cols Hs Hu. rewrite (Heps cols Hs).
    apply Forall_concat, Forall_fmap, Forall_forall. intros i _.
    apply Forall_replicate, Hu.
  - cbn [value]. rewrite Hex. reflexivity.
  - cbn [value]. apply Qmean_nonneg, penalty_terms_nonneg.
Qed.

End Penalty_facts.

Lemma gradient_penalty_value_witness :
  exists gp,
    (m ← train_critic (Toy.x, Toy.dlls) Toy.start;
     Ok (metrics_get "gradient penalty" m.1)) = Ok (Ok gp) /\
    (0 <= value gp)%Q.
Proof.
  destruct (train_critic (Toy.x, Toy.dlls) Toy.start) as [[m w']|e] eqn:E;
    [|vm_compute in E; discriminate].
  destruct (gradient_penalty_value _ _ _ (Toy.x, Toy.dlls) Toy.start m w' E)
    as (real & gen & w1 & c & n & eps & mixed & gradient & gp & H).
  destruct H as (_ & _ & _ & _ & _ & _ & _ & _ & _ & Hgp & _ & Hpos).
  exists gp. cbn. rewrite Hgp. auto.
Defined.

(** ** One critic update *)

Section Update_facts.
Context {network state_dict : Type}.
Context `{!Torch network state_dict, !Models network, !Evaluation network}.
Implicit Type w : world network.

(** The per-batch computations only draw random numbers. *)
Lemma build_samples_frame (b : batch) w (s : tensor * tensor) w' :
  build_samples b w = Ok (s, w') -> exists r, w' = set_random r w.
Proof.
  destruct b as [x dlls], s as [real gen]. intros H.
  apply build_samples_ok in H
    as (d & n & z & noise & r & nx & g & out & Hall).
  exists r. apply Hall.
Qed.

Lemma train_critic_frame (b : batch) w (m : metrics) w' :
  train_critic b w = Ok (m, w') -> exists r, w' = set_random r w.
Proof.
  intros H. apply train_critic_ok in H
    as (real & gen & w1 & c & fake & realp & n & eps & gradient & gp & H).
  destruct H as (Hb & _ & _ & _ & _ & _ & _ & _ & _ & ->).
  apply build_samples_frame in Hb as (r & ->). eexists. reflexivity.
Qed.

(** Everything a successful run of [train_generator] went through. *)
Lemma train_generator_ok (b : batch) w (m : metrics) w' :
  train_generator b w = Ok (m, w') ->
  exists real generated c crit_fake_pred,
    build_samples b w = Ok ((real, generated), w') /\
    critic_model (gan_model w') = Some c /\
    call critic_leaves c generated = Ok crit_fake_pred /\
    m = [("G/loss", sneg (mean crit_fake_pred))].
Proof.
  unfold train_generator. intros H.
  apply bind_ok in H as ([real gen] & w1 & Hb & H).
  step_in H as self Hs. step_in H as c Hc. step_in H as pred Hp.
  apply ret_ok in H as [-> ->]. apply getattr_ok in Hc.
  exists real, gen, c, pred. auto.
Qed.

Lemma train_generator_frame (b : batch) w (m : metrics) w' :
  train_generator b w = Ok (m, w') -> exists r, w' = set_random r w.
Proof.
  intros H. apply train_generator_ok in H
    as (real & gen & c & pred & Hb & _).
  apply build_samples_frame in Hb. exact Hb.
Qed.

Lemma backward_ok (loss : scalar) w w' :
  backward loss w = Ok (tt, w') ->
  w' = set_grads
         (if reaches_generator (sgraph loss)
          then generator_grad w ++ [(loss, gan_model w)] else generator_grad w)
         (if reaches_critic (sgraph loss)
          then critic_grad w ++ [(loss, gan_model w)] else critic_grad w) w.
Proof.
  unfold backward. intros Hrun. case_match; [|discriminate].
  inversion Hrun. reflexivity.
Qed.

Lemma zero_grad_ok (o : optimizer) w w' :
  zero_grad o w = Ok (tt, w') ->
  exists gg cg, w' = set_grads gg cg w.
Proof.
  unfold zero_grad. destruct (bound_to o); intros H; inversion H; eauto.
Qed.

(** The stages of a successful [critic_update]. *)
Lemma critic_update_ok (b : batch) w (m : metrics) w' :
  critic_update b w = Ok (m, w') ->
  exists w0 w1 w2 loss,
    critic_optimizer_zero_grad w = Ok (tt, w0) /\
    train_critic b w0 = Ok (m, w1) /\
    metrics_get "C/loss" m = Ok loss /\
    backward loss w1 = Ok (tt, w2) /\
    critic_optimizer_step w2 = Ok (tt, w').
Proof.
  unfold critic_update. intros H.
  apply bind_ok in H as ([] & w0 & Hz & H).
  apply bind_ok in H as (m0 & w1 & Ht & H).
  step_in H as loss Hl.
  apply bind_ok in H as ([] & w2 & Hb & H).
  apply bind_ok in H as ([] & w3 & Hs & H).
  apply ret_ok in H as [-> ->].
  exists w0, w1, w2, loss. auto.
Qed.

(** A critic update steps the critic optimizer once and leaves the
    generator optimizer, the sink and the files alone. *)
Lemma critic_update_steps (b : batch) w (m : metrics) w' :
  critic_update b w = Ok (m, w') ->
  step_count (critic_optimizer w') = S (step_count (critic_optimizer w)) /\
  generator_optimizer w' = generator_optimizer w /\
  neptune_logger w' = neptune_logger w /\
  files w' = files w.
Proof.
  intros H. apply critic_update_ok in H
    as (w0 & w1 & w2 & loss & Hz & Ht & _ & Hb & Hs).
  apply zero_grad_ok in Hz as (gg & cg & ->).
  apply train_critic_frame in Ht as (r & ->).
  apply backward_ok in Hb. subst w2.
  unfold critic_optimizer_step in Hs. injection Hs as <-.
  cbn. auto.
Qed.

(** The world after a critic update by an optimizer that was given the
    critic's parameters: the step consumes the gradient of the 'C/loss'
    of this pass and nothing else, since [zero_grad] has cleared what
    was there. *)
Lemma critic_update_world (b : batch) w (m : metrics) w' :
  bound_to (critic_optimizer w) = Critic ->
  critic_update b w = Ok (m, w') ->
  exists r loss,
    train_critic b (set_grads (generator_grad w) [] w)
      = Ok (m, set_random r (set_grads (generator_grad w) [] w)) /\
    metrics_get "C/loss" m = Ok loss /\
    reaches_critic (sgraph loss) = true /\
    let o := critic_optimizer w in
    let g := [(loss, gan_model w)] in
    w' = set_critic_optimizer (stepped o) (critic_optimizer_state w ++ [g])
           (set_gan_model
              (mkWGAN (params (gan_model w)) (generator_model (gan_model w))
                 (adam_update (learning_rate o) (weight_decay o)
                    (critic_optimizer_state w) g <$> critic_model (gan_model w)))
              (set_grads
                 (if reaches_generator (sgraph loss)
                  then generator_grad w ++ g else generator_grad w)
                 g (set_random r w))).
Proof.
  intros Hbound H. apply critic_update_ok in H
    as (w0 & w1 & w2 & loss & Hz & Ht & Hl & Hb & Hs).
  unfold critic_optimizer_zero_grad, zero_grad in Hz. rewrite Hbound in Hz.
  injection Hz as <-.
  pose proof (train_critic_frame _ _ _ _ Ht) as (r & ->).
  assert (Hrc : reaches_critic (sgraph loss) = true).
  { apply train_critic_ok in Ht
      as (real & gen & w3 & c & fake & realp & n & eps & gradient & gp & Ht).
    destruct Ht as (_ & _ & Hf & _ & _ & _ & _ & _ & -> & _).
    apply call_ok in Hf as (fs & _ & _ & _ & Hfg).
    cbn in Hl. injection Hl as <-. cbn. rewrite Hfg. cbn.
    rewrite ?orb_true_r. reflexivity. }
  apply backward_ok in Hb. subst w2.
  unfold critic_optimizer_step in Hs. injection Hs as <-.
  exists r, loss. split; [exact Ht|]. split; [exact Hl|]. split; [exact Hrc|].
  cbn. unfold apply_update. cbn. rewrite Hbound, Hrc. cbn. reflexivity.
Qed.

(** The generator's module and configuration after a critic update by an
    optimizer that was given the critic's parameters. *)
Lemma critic_update_keeps_generator (b : batch) w (m : metrics) w' :
  bound_to (critic_optimizer w) = Critic ->
  critic_update b w = Ok (m, w') ->
  generator_model (gan_model w') = generator_model (gan_model w) /\
  params (gan_model w') = params (gan_model w) /\
  bound_to (critic_optimizer w') = Critic.
Proof.
  intros Hb H. apply critic_update_world in H as (r & loss & _ & _ & _ & H);
    [|exact Hb].
  cbn in H. subst w'. cbn. auto.
Qed.

End Update_facts.

Section Reach_facts.
Context {network state_dict : Type}.
Context `{!Torch network state_dict, !Models network, !Evaluation network}.
Implicit Type w : world network.

(** What the losses of [train_critic] reach: the generated sample
    carries the generator's graph, the fake scores are taken on its
    detached copy and do not, and 'C/loss' reaches the generator exactly
    when the penalty does. The penalty as described does not. *)
Lemma critic_loss_graph (b : batch) w (m : metrics) w' :
  train_critic b w = Ok (m, w') ->
  exists real generated w1 c fake_scores loss real_mean gp,
    build_samples b w = Ok ((real, generated), w1) /\
    reaches_generator (graph generated) = true /\
    critic_model (gan_model w) = Some c /\
    call critic_leaves c (detach generated) = Ok fake_scores /\
    m = [("C/loss", loss); ("C/fake_pred", mean fake_scores);
         ("C/real_pred", real_mean); ("gradient penalty", gp)] /\
    reaches_generator (sgraph (mean fake_scores)) = false /\
    reaches_generator (sgraph loss) = reaches_generator (sgraph gp) /\
    (penalty_as_described _ -> reaches_generator (sgraph gp) = false).
Proof.
  intros H. apply train_critic_ok in H
    as (real & gen & w1 & c & fake & realp & n & eps & gradient & gp & H).
  destruct H as (Hb & Hc & Hf & _ & _ & _ & Hg & Hgp & -> & _).
  pose proof Hb as Hb'. destruct b as [x dlls].
  apply build_samples_ok in Hb'
    as (d & n0 & z & nz & r & nx & g & out & _ & _ & _ & _ & _ & _ & _ & Hout & Hgen & ->).
  cbn [gan_model set_random] in Hc.
  apply call_ok in Hout as (o0 & _ & _ & _ & Hog).
  apply cat1_graph in Hgen.
  pose proof Hf as Hf'. apply call_ok in Hf' as (f0 & _ & _ & _ & Hfg).
  eexists real, gen, _, c, fake, _, _, gp.
  split; [exact Hb|].
  split; [rewrite Hgen, Hog; cbn; rewrite ?orb_true_r; reflexivity|].
  split; [exact Hc|]. split; [exact Hf|]. split; [reflexivity|].
  split; [cbn; rewrite Hfg; reflexivity|].
  split; [cbn; rewrite Hfg; reflexivity|].
  intros [Hdg Hdp]. rewrite Hdg in Hg. rewrite Hdp in Hgp.
  apply spec_get_gradient_ok in Hg
    as (mixed & g0 & _ & _ & _ & _ & _ & _ & _ & _ & Hgg).
  unfold spec_gradient_penalty in Hgp. injection Hgp as <-.
  cbn. rewrite Hgg. reflexivity.
Qed.

(** C4. A critic update never changes the generator's parameters. In
    [train_critic] the generated sample carries the generator's graph
    and the critic scores its detached copy, so the fake scores do not
    reach the generator's parameters, and 'C/loss' reaches them only if
    the penalty does; the penalty as described does not. In a critic
    update, lines 68 to 74, by an optimizer that was given the critic's
    parameters, the generator's module, the configuration and the
    generator's optimizer are as before; and with the penalty as
    described [backward] adds nothing to the gradients of the generator's
    parameters. *)
Theorem critic_update_spares_generator (b : batch) w (m : metrics) w' :
  (train_critic b w = Ok (m, w') ->
   exists real generated w1 c fake_scores loss real_mean gp,
     build_samples b w = Ok ((real, generated), w1) /\
     reaches_generator (graph generated) = true /\
     critic_model (gan_model w) = Some c /\
     call critic_leaves c (detach generated) = Ok fake_scores /\
     m = [("C/loss", loss); ("C/fake_pred", mean fake_scores);
          ("C/real_pred", real_mean); ("gradient penalty", gp)] /\
     reaches_generator (sgraph (mean fake_scores)) = false /\
     reaches_generator (sgraph loss) = reaches_generator (sgraph gp) /\
     (penalty_as_described _ -> reaches_generator (sgraph gp) = false)) /\
  (bound_to (critic_optimizer w) = Critic ->
   critic_update b w = Ok (m, w') ->
   generator_model (gan_model w') = generator_model (gan_model w) /\
   params (gan_model w') = params (gan_model w) /\
   generator_optimizer w' = generator_optimizer w /\
   generator_optimizer_state w' = generator_optimizer_state w /\
   (penalty_as_described _ -> generator_grad w' = generator_grad w)).
Proof.
  split; [apply critic_loss_graph|].
  intros Hb H. apply critic_update_world in H as (r & loss & Ht & Hl & _ & H);
    [|exact Hb].
  cbn in H. subst w'. cbn. repeat split; auto.
  intros Hd. apply critic_loss_graph in Ht
    as (real & gen & w1 & c & fake & loss' & rm & gp & _ & _ & _ & _ & -> & _ & Hlg & Hgp).
  cbn in Hl. injection Hl as <-.
  rewrite Hlg, (Hgp Hd). reflexivity.
Qed.

End Reach_facts.

(** On the two examples: 'C/loss' does not reach the generator's
    parameters; one critic update moves the critic's weights and leaves
    the generator's weights and the gradients of its parameters as they
    were. *)
Lemma critic_update_spares_generator_witness :
  (exists m w' loss,
     train_critic (Toy.x, Toy.dlls) Toy.start = Ok (m, w') /\
     metrics_get "C/loss" m = Ok loss /\
     reaches_generator (sgraph loss) = false) /\
  (exists m w',
     critic_update (Toy.x, Toy.dlls) Toy.start = Ok (m, w') /\
     generator_model (gan_model w') = Some [1; 0; 0; 1; 0]%Q /\
     generator_grad w' = [] /\
     critic_model (gan_model w') <> Some [3; 4; 0; 0]%Q).
Proof.
  split.
  - destruct (train_critic (Toy.x, Toy.dlls) Toy.start) as [[m w']|e] eqn:E;
      [|vm_compute in E; discriminate].
    destruct (proj1 (critic_update_spares_generator
                       (Toy.x, Toy.dlls) Toy.start m w') E)
      as (real & gen & w1 & c & fake & loss & rm & gp
          & _ & _ & _ & _ & -> & _ & Hl & Hgp).
    eexists _, w', loss. split; [reflexivity|]. split; [reflexivity|].
    rewrite Hl. exact (Hgp (conj eq_refl eq_refl)).
  - destruct (critic_update (Toy.x, Toy.dlls) Toy.start) as [[m w']|e] eqn:E;
      [|vm_compute in E; discriminate].
    destruct (proj2 (critic_update_spares_generator
                       (Toy.x, Toy.dlls) Toy.start m w') eq_refl E)
      as (Hg & _ & _ & _ & Hgg).
    exists m, w'. split; [reflexivity|].
    split; [exact Hg|]. split; [exact (Hgg (conj eq_refl eq_refl))|].
    assert (Hc : match critic_update (Toy.x, Toy.dlls) Toy.start with
                 | Ok (_, w) => critic_model (gan_model w)
                 | Err _ => None
                 end <> Some [3; 4; 0; 0]%Q) by (vm_compute; discriminate).
    rewrite E in Hc. exact Hc.
Defined.

(** ** The training loop *)

Section Fit_facts.
Context {network state_dict : Type}.
Context `{!Torch network state_dict, !Models network, !Evaluation network}.
Implicit Type w : world network.

(** The optimizers a [Trainer] starts with: each was given the
    parameters of its own module and has not stepped yet. *)
Lemma Trainer_init_optimizers (gan : WGAN network) (logger : option (list event))
    (r : rng) (fs : gset string) w :
  Trainer_init gan logger r fs = Ok w ->
  gan_model w = gan /\
  bound_to (generator_optimizer w) = Generator /\
  bound_to (critic_optimizer w) = Critic /\
  step_count (generator_optimizer w) = 0%nat /\
  step_count (critic_optimizer w) = 0%nat.
Proof.
  unfold Trainer_init. intros H.
  apply result_bind_ok in H as ([go co] & Hc & H). injection H as <-.
  apply configure_optimizers_inv in Hc
    as (g & c & lrg & wdg & lrc & wdc & gm & cm
        & _ & _ & _ & _ & _ & _ & _ & _ & _ & _ & Hgo & Hco).
  apply Adam_ok in Hgo as (_ & _ & _ & ->).
  apply Adam_ok in Hco as (_ & _ & _ & ->).
  cbn. auto.
Qed.

Lemma emit_ok (method : string) (e : event) w w' :
  emit method e w = Ok (tt, w') ->
  exists l, neptune_logger w = Some l /\
            w' = set_neptune_logger (Some (l ++ [e])) w.
Proof.
  unfold emit. destruct (neptune_logger w) as [l|]; [|discriminate].
  intros H. inversion H. eauto.
Qed.

(** Logging writes to the sink and to nothing else. *)
Lemma log_items_frame (losses : metrics) w w' :
  log_items losses w = Ok (tt, w') ->
  exists l, w' = set_neptune_logger l w.
Proof.
  revert w. induction losses as [|[key v] rest IH]; intros w H.
  - apply ret_ok in H as [_ ->]. exists (neptune_logger w). destruct w; reflexivity.
  - cbn [log_items] in H. apply bind_ok in H as ([] & w1 & He & H).
    apply emit_ok in He as (l & _ & ->).
    apply IH in H as (l' & ->). exists l'. reflexivity.
Qed.

Lemma critic_loop_steps (n : nat) (b : batch) (cl cl' : option metrics) w w' :
  critic_loop n b cl w = Ok (cl', w') ->
  step_count (critic_optimizer w') = (step_count (critic_optimizer w) + n)%nat /\
  generator_optimizer w' = generator_optimizer w /\
  neptune_logger w' = neptune_logger w /\
  files w' = files w /\
  (n = 0%nat -> cl' = cl) /\ (n <> 0%nat -> is_Some cl').
Proof.
  revert cl w. induction n as [|n IH]; intros cl w H.
  - apply ret_ok in H as [-> ->]. repeat split; auto; try lia; congruence.
  - cbn [critic_loop] in H. apply bind_ok in H as (l & w1 & Hu & H).
    apply critic_update_steps in Hu as (Hc & Hg & Hl & Hf).
    apply IH in H as (Hc' & Hg' & Hl' & Hf' & H0 & Hn).
    rewrite Hc', Hc, Hg', Hg, Hl', Hl, Hf', Hf.
    repeat split; auto; try lia; try discriminate.
    intros _. destruct n; [rewrite H0 by reflexivity; eauto | apply Hn; discriminate].
Qed.

Lemma generator_update_steps (b : batch) w w' :
  generator_update b w = Ok (tt, w') ->
  step_count (generator_optimizer w') = S (step_count (generator_optimizer w)) /\
  critic_optimizer w' = critic_optimizer w /\
  files w' = files w.
Proof.
  unfold generator_update. intros H.
  apply bind_ok in H as (m & w1 & Ht & H).
  apply train_generator_frame in Ht as (r & ->).
  step_in H as loss Hl.
  apply bind_ok in H as ([] & w2 & Hb & H).
  apply backward_ok in Hb. subst w2.
  apply bind_ok in H as ([] & w3 & Hs & H).
  unfold generator_optimizer_step in Hs. inversion Hs; subst w3. clear Hs.
  apply log_items_frame in H as (l & ->).
  cbn. auto.
Qed.

Lemma ensure_dir_ok (path : string) w w' :
  ensure_dir path w = Ok (tt, w') ->
  w' = set_files ({[path]} ∪ files w) w.
Proof.
  unfold ensure_dir. destruct (String.eqb path ""); [discriminate|].
  case_bool_decide as Hin; intros Hrun; injection Hrun as <-; [|reflexivity].
  rewrite (subseteq_union_1_L {[path]} (files w))
    by (apply singleton_subseteq_l; exact Hin).
  destruct w; reflexivity.
Qed.

(** Lines 90 to 100, step by step. *)
Lemma display_ok (t : Trainer) (epoch iteration : nat)
    (validation_loader : option (list batch)) w w' :
  display t epoch iteration validation_loader w = Ok (tt, w') ->
  exists fs outputs r l h s,
    save_models (gan_model w)
      (path_join (save_path t) (checkpoint_name epoch iteration)) epoch
      ({[save_path t]} ∪ files w) = Ok fs /\
    evaluate (gan_model w) validation_loader (random w) = Ok (outputs, r) /\
    outputs !! "histogram" = Some h /\
    outputs !! "rocauc" = Some s /\
    neptune_logger w = Some l /\
    w' = set_neptune_logger
           (Some (l ++ [log_image "Histograms" h; log_metric "rocauc" s]))
           (set_random r (set_files fs w)).
Proof.
  unfold display. intros H.
  apply bind_ok in H as ([] & w1 & Hd & H).
  apply ensure_dir_ok in Hd. subst w1.
  apply bind_ok in H as ([] & w2 & Hs & H).
  apply result_bind_ok in Hs as (fs & Hs & Hw2). inversion Hw2; subst w2. clear Hw2.
  apply bind_ok in H as (outputs & w3 & He & H).
  apply draw_ok in He as (r & He & ->).
  step_in H as h Hh.
  apply bind_ok in H as ([] & w4 & Hi & H).
  apply emit_ok in Hi as (l & Hl & ->).
  step_in H as s Hsc.
  apply emit_ok in H as (l' & Hl' & ->).
  cbn in *. injection Hl' as <-.
  unfold outputs_get in Hh, Hsc.
  destruct (outputs !! "histogram") as [h'|] eqn:Eh; [|discriminate].
  destruct (outputs !! "rocauc") as [s'|] eqn:Es; [|discriminate].
  injection Hh as ->. injection Hsc as ->.
  exists fs, outputs, r, l, h, s. rewrite <- app_assoc. cbn.
  repeat split; auto.
Qed.

(** The world before line 90 of a successful pass of the loop body. *)
Lemma fit_iteration_ok (t : Trainer) (epoch iteration : nat) (b : batch)
    (vl : option (list batch)) (cl cl' : option metrics) w w' :
  fit_iteration t epoch iteration b vl cl w = Ok (cl', w') ->
  exists w1 w2 w3 losses rem,
    critic_loop (Z.to_nat (critic_step t)) b cl w = Ok (Some losses, w1) /\
    cl' = Some losses /\
    (if freeze_generator t
     then w2 = set_grads (generator_grad w2) (critic_grad w2) w1
     else exists w1', w1' = set_grads (generator_grad w1') (critic_grad w1') w1 /\
                      generator_update b w1' = Ok (tt, w2)) /\
    log_items losses w2 = Ok (tt, w3) /\
    display_step t <> 0%Z /\
    rem = (Z.of_nat iteration mod display_step t)%Z /\
    (if (rem =? 0)%Z then display t epoch iteration vl w3 = Ok (tt, w')
     else w' = w3).
Proof.
  unfold fit_iteration. intros H.
  apply bind_ok in H as (cl1 & w1 & Hloop & H).
  apply bind_ok in H as ([] & w1' & Hz & H).
  apply zero_grad_ok in Hz as (gg & cg & Hz).
  apply bind_ok in H as ([] & w2 & Hg & H).
  step_in H as losses Hl.
  apply bind_ok in H as ([] & w3 & Hlog & H).
  step_in H as rem Hrem.
  apply bind_ok in H as ([] & w4 & Hd & H).
  apply ret_ok in H as [-> ->].
  destruct cl1 as [l|]; [|discriminate]. injection Hl as ->.
  unfold py_mod in Hrem. destruct (display_step t =? 0)%Z eqn:Ez; [discriminate|].
  injection Hrem as <-. apply Z.eqb_neq in Ez.
  exists w1, w2, w3, losses, (Z.of_nat iteration mod display_step t)%Z.
  split; [exact Hloop|]. split; [reflexivity|].
  split.
  - destruct (freeze_generator t); cbn in Hg.
    + apply ret_ok in Hg as [_ ->]. subst w1'. reflexivity.
    + exists w1'. split; [subst w1'; reflexivity | exact Hg].
  - split; [exact Hlog|]. split; [exact Ez|]. split; [reflexivity|].
    destruct (_ =? 0)%Z; [exact Hd|]. apply ret_ok in Hd as [_ ->]. reflexivity.
Qed.

Lemma display_frame (t : Trainer) (epoch iteration : nat)
    (vl : option (list batch)) w w' :
  display t epoch iteration vl w = Ok (tt, w') ->
  critic_optimizer w' = critic_optimizer w /\
  generator_optimizer w' = generator_optimizer w.
Proof.
  intros H. apply display_ok in H as (fs & o & r & l & h & s & H).
  destruct H as (_ & _ & _ & _ & _ & ->). split; reflexivity.
Qed.

(** The step counts across one pass of the loop body, with the number of
    passes of the critic loop as [range] counts them. A pass that starts
    with [critic_losses] unbound completes only for a positive
    critic_step. *)
Lemma fit_iteration_counts (t : Trainer) (epoch iteration : nat)
    (b : batch) (vl : option (list batch)) (cl cl' : option metrics) w w' :
  fit_iteration t epoch iteration b vl cl w = Ok (cl', w') ->
  step_count (critic_optimizer w')
    = (step_count (critic_optimizer w) + Z.to_nat (critic_step t))%nat /\
  step_count (generator_optimizer w')
    = (step_count (generator_optimizer w)
       + (if freeze_generator t then 0 else 1))%nat /\
  is_Some cl' /\
  (cl = None -> (0 < critic_step t)%Z).
Proof.
  intros H. apply fit_iteration_ok in H
    as (w1 & w2 & w3 & losses & rem & Hloop & -> & Hgen & Hlog & _ & _ & Hd).
  apply critic_loop_steps in Hloop as (Hc1 & Hg1 & _ & _ & H0 & _).
  apply log_items_frame in Hlog as (l & ->).
  assert (Hw' : critic_optimizer w' = critic_optimizer w2 /\
                generator_optimizer w' = generator_optimizer w2).
  { destruct (rem =? 0)%Z; [apply display_frame in Hd; exact Hd|].
    subst w'. split; reflexivity. }
  destruct Hw' as [-> ->].
  assert (Hpos : cl = None -> (0 < critic_step t)%Z).
  { intros ->. destruct (Z.to_nat (critic_step t)) eqn:Ek; [|lia].
    specialize (H0 eq_refl). discriminate. }
  destruct (freeze_generator t).
  - rewrite Hgen. cbn. rewrite Hc1, Hg1. repeat split; eauto; lia.
  - destruct Hgen as (w1' & Hw1' & Hgen).
    apply generator_update_steps in Hgen as (Hg2 & Hc2 & _).
    rewrite Hg2, Hc2, Hw1'. cbn. rewrite Hc1, Hg1. repeat split; eauto; lia.
Qed.

(** C6. Across one full pass of the body of the inner loop with a
    critic_step of k >= 0, the critic optimizer's step count grows by
    exactly k and the generator optimizer's by exactly 1, or by 0 when
    freeze_generator is set. *)
Theorem fit_iteration_step_counts (t : Trainer) (epoch iteration : nat)
    (b : batch) (vl : option (list batch)) (cl cl' : option metrics) w w' :
  (0 <= critic_step t)%Z ->
  fit_iteration t epoch iteration b vl cl w = Ok (cl', w') ->
  Z.of_nat (step_count (critic_optimizer w'))
    = (Z.of_nat (step_count (critic_optimizer w)) + critic_step t)%Z /\
  step_count (generator_optimizer w')
    = (step_count (generator_optimizer w)
       + (if freeze_generator t then 0 else 1))%nat.
Proof.
  intros Hk H. apply fit_iteration_counts in H as (Hc & Hg & _ & _).
  split; [|exact Hg]. rewrite Hc. lia.
Qed.

(** Inside [fit] the local [critic_losses] starts unbound, so the counts
    hold for all of its passes whatever the sign of critic_step: over the
    batches of one epoch ... *)
Lemma fit_epoch_counts (t : Trainer) (epoch : nat) (bs : list batch)
    (vl : option (list batch)) :
  forall (iteration : nat) (cl cl' : option metrics) w w',
    cl = None \/ (0 <= critic_step t)%Z ->
    fit_epoch t epoch iteration bs vl cl w = Ok (cl', w') ->
    Z.of_nat (step_count (critic_optimizer w'))
      = (Z.of_nat (step_count (critic_optimizer w))
         + Z.of_nat (length bs) * critic_step t)%Z /\
    step_count (generator_optimizer w')
      = (step_count (generator_optimizer w)
         + length bs * (if freeze_generator t then 0 else 1))%nat /\
    (cl' = None \/ (0 <= critic_step t)%Z).
Proof.
  induction bs as [|b bs IH]; intros iteration cl cl' w w' Hcl H.
  - apply ret_ok in H as [-> ->]. cbn [length]. repeat split; auto; lia.
  - cbn [fit_epoch] in H. apply bind_ok in H as (cl1 & w1 & Hit & H).
    apply fit_iteration_counts in Hit as (Hc & Hg & _ & Hpos).
    assert (Hk : (0 <= critic_step t)%Z).
    { destruct Hcl as [Hn | Hk]; [apply Hpos in Hn; lia | exact Hk]. }
    apply IH in H as (Hc' & Hg' & _); [|right; exact Hk].
    rewrite Hc', Hg', Hc, Hg. cbn [length]. repeat split; auto; lia.
Qed.

(** Over a whole run of [fit] with E epochs over B batches the critic
    optimizer steps E * B * critic_step times and the generator optimizer
    E * B times (never when frozen), whatever the sign of critic_step. *)
Lemma fit_counts (t : Trainer) (bs : list batch) (vl : option (list batch)) w w' :
  fit t (Some bs) vl w = Ok (tt, w') ->
  Z.of_nat (step_count (critic_optimizer w'))
    = (Z.of_nat (step_count (critic_optimizer w))
       + Z.of_nat (Z.to_nat (max_epoch t) * length bs) * critic_step t)%Z /\
  step_count (generator_optimizer w')
    = (step_count (generator_optimizer w)
       + Z.to_nat (max_epoch t) * length bs
         * (if freeze_generator t then 0 else 1))%nat.
Proof.
  unfold fit. intros H. apply bind_ok in H as (cl' & w1 & H & Hret).
  apply ret_ok in Hret as [_ ->].
  cut (forall n epoch cl w0,
             cl = None \/ (0 <= critic_step t)%Z ->
             fit_epochs t n epoch (Some bs) vl cl w0 = Ok (cl', w1) ->
             Z.of_nat (step_count (critic_optimizer w1))
               = (Z.of_nat (step_count (critic_optimizer w0))
                  + Z.of_nat (n * length bs) * critic_step t)%Z /\
             step_count (generator_optimizer w1)
               = (step_count (generator_optimizer w0)
                  + n * length bs * (if freeze_generator t then 0 else 1))%nat).
  { intros Hgen. exact (Hgen _ 0%nat None w (or_introl eq_refl) H). }
  { clear H. induction n as [|n IH]; intros epoch cl w0 Hcl Hn.
    - apply ret_ok in Hn as [_ ->]. cbn. split; lia.
    - cbn [fit_epochs] in Hn. step_in Hn as bs0 Hbs. injection Hbs as <-.
      apply bind_ok in Hn as (cl1 & w2 & He & Hn).
      apply fit_epoch_counts in He as (Hc & Hg & Hcl1); [|exact Hcl].
      apply IH in Hn as (Hc' & Hg'); [|exact Hcl1].
      rewrite Hc', Hg', Hc, Hg. split; lia. }
Qed.

Lemma prefix_app (a b : string) : String.prefix a (a +:+ b) = true.
Proof.
  induction a as [|c a IH]; simpl; [destruct b; reflexivity|].
  destruct (ascii_dec c c); [exact IH | contradiction].
Qed.

(** The checkpoint path lies under the save directory. *)
Lemma checkpoint_under_save_path (dir : string) (epoch iteration : nat) :
  String.prefix dir (path_join dir (checkpoint_name epoch iteration)) = true.
Proof.
  unfold path_join, checkpoint_name. cbn [String.app String.prefix].
  destruct (ascii_dec "/" "e") as [Heq|_]; [discriminate Heq|].
  destruct (String.eqb dir "") eqn:Ed.
  - apply String.eqb_eq in Ed. subst dir. reflexivity.
  - destruct (String.eqb _ "/"); apply prefix_app.
Qed.


End Fit_facts.

Lemma fit_iteration_step_counts_witness :
  exists cl' w',
    fit_iteration Toy.trainer 0 0 (Toy.x, Toy.dlls) None None Toy.start = Ok (cl', w') /\
    step_count (critic_optimizer w') = 2%nat /\
    step_count (generator_optimizer w') = 1%nat.
Proof.
  destruct (fit_iteration Toy.trainer 0 0 (Toy.x, Toy.dlls) None None Toy.start)
    as [[cl' w']|e] eqn:E; [|vm_compute in E; discriminate].
  exists cl', w'. split; [reflexivity|].
  assert (Hk : (0 <= critic_step Toy.trainer)%Z) by (cbn; lia).
  destruct (fit_iteration_step_counts Toy.trainer 0 0 (Toy.x, Toy.dlls) None None
              cl' Toy.start w' Hk E) as [Hc Hg].
  cbn in Hc, Hg. split; [lia | exact Hg].
Defined.


(** ** More on construction and the optimizers *)

Section Optimizer_facts.
Context {network state_dict : Type}.
Context `{!Torch network state_dict, !Models network}.

(** [configure_optimizers] returns only when both sections name the
    optimizer "adam", letter for letter, and both networks exist; each
    optimizer is then bound to its own network, carries the learning rate
    and the weight decay of its own section and has not stepped. *)
Theorem configure_optimizers_ok (self : WGAN network) (go co : optimizer) :
  configure_optimizers self = Ok (go, co) ->
  exists g c lrg wdg lrc wdc,
    params self !! "generator" = Some (VDict g) /\
    params self !! "critic" = Some (VDict c) /\
    g !! "optimizer" = Some (VStr "adam") /\
    c !! "optimizer" = Some (VStr "adam") /\
    g !! "learning_rate" = Some lrg /\ g !! "weight_decay" = Some wdg /\
    c !! "learning_rate" = Some lrc /\ c !! "weight_decay" = Some wdc /\
    is_Some (generator_model self) /\ is_Some (critic_model self) /\
    go = mkOptimizer Generator lrg wdg 0 /\
    co = mkOptimizer Critic lrc wdc 0.
Proof.
  intros H. apply configure_optimizers_inv in H
    as (g & c & lrg & wdg & lrc & wdc & gm & cm
        & Hg & Hc & Hog & Hoc & Hlrg & Hwdg & Hlrc & Hwdc & Hgm & Hcm & Hgo & Hco).
  apply Adam_ok in Hgo as (_ & _ & _ & ->).
  apply Adam_ok in Hco as (_ & _ & _ & ->).
  exists g, c, lrg, wdg, lrc, wdc.
  rewrite Hgm, Hcm. repeat split; eauto.
Qed.

(** An optimizer name other than "adam" (so also "Adam": the comparison
    is not case-insensitive) is refused with the NameError. For the
    generator this happens whatever else the configuration says. The
    critic's name is read after the generator's optimizer has been
    constructed: when that constructor refuses the generator's learning
    rate or weight decay its error is the one raised, and the NameError
    for the critic is raised otherwise. *)
Theorem configure_optimizers_unknown (self : WGAN network) (g : config) (v : pyval) :
  params self !! "generator" = Some (VDict g) ->
  (g !! "optimizer" = Some v -> v <> VStr "adam" ->
   configure_optimizers self = Err (NameError "Unknown optimizer name" None)) /\
  (forall c gm lr wd,
      g !! "optimizer" = Some (VStr "adam") ->
      generator_model self = Some gm ->
      g !! "learning_rate" = Some lr -> g !! "weight_decay" = Some wd ->
      params self !! "critic" = Some (VDict c) ->
      c !! "optimizer" = Some v -> v <> VStr "adam" ->
      configure_optimizers self
      = match Adam Generator gm lr wd with
        | Ok _ => Err (NameError "Unknown optimizer name" None)
        | Err e => Err e
        end).
Proof.
  intros Hg.
  assert (Hv : v <> VStr "adam" -> is_adam v = false).
  { intros Hne. destruct (is_adam v) eqn:E; [|reflexivity].
    apply is_adam_true in E. contradiction. }
  split.
  - intros Ho Hne. unfold configure_optimizers, getitem. rewrite Hg. cbn.
    unfold getitem. rewrite Ho. cbn. rewrite (Hv Hne). reflexivity.
  - intros c gm lr wd Ho Hgm Hlr Hwd Hc Hoc Hne.
    unfold configure_optimizers, getitem. rewrite Hg. cbn.
    unfold getitem. rewrite Ho. cbn. rewrite Hgm. cbn.
    unfold getitem. rewrite Hlr. cbn. unfold getitem. rewrite Hwd. cbn.
    destruct (Adam Generator gm lr wd) as [go|e]; cbn; [|reflexivity].
    rewrite Hc. cbn. unfold getitem. rewrite Hoc. cbn. rewrite (Hv Hne).
    reflexivity.
Qed.

(** [create_critic] returns only for a name that lower-cases to "node" or
    "fcn"; it sets the critic and leaves the configuration and the
    generator as they were. *)
Theorem create_critic_ok (self self' : WGAN network) :
  create_critic self = Ok self' ->
  exists name net,
    params self !! "critic_architecture" = Some (VStr name) /\
    (lower name = "node" \/ lower name = "fcn") /\
    critic_model self' = Some net /\
    generator_model self' = generator_model self /\
    params self' = params self.
Proof.
  unfold create_critic. intros H.
  apply result_bind_ok in H as (arch & Ha & H). apply getitem_ok in Ha.
  apply result_bind_ok in H as (name & Hn & H).
  destruct arch; try discriminate. injection Hn as <-.
  apply result_bind_ok in H as (net & Hnet & H).
  apply result_bind_ok in H as (c & _ & H).
  apply result_bind_ok in H as (path & _ & H).
  apply result_bind_ok in H as (net' & _ & H). injection H as <-.
  exists s, net'. cbn. repeat split; auto.
  destruct (String.eqb (lower s) "node") eqn:E1.
  - left. apply String.eqb_eq, E1.
  - right. apply result_bind_ok in Hnet as (a2 & Ha2 & Hnet).
    apply result_bind_ok in Hnet as (n2 & Hn2 & Hnet).
    apply getitem_ok in Ha2. rewrite Ha in Ha2. injection Ha2 as <-.
    injection Hn2 as <-.
    destruct (String.eqb (lower s) "fcn") eqn:E2; [apply String.eqb_eq, E2|].
    apply result_bind_ok in Hnet as (? & _ & Hnet). discriminate.
Qed.

(** The critic is built by the factory that the lower-cased name selects
    and then goes through the checkpoint step: a falsy path (None, the
    empty string) keeps the fresh network, any other path is loaded into
    it. *)
Theorem create_critic_dispatch (self : WGAN network) (name : string)
    (c mt path : pyval) :
  params self !! "critic_architecture" = Some (VStr name) ->
  params self !! "critic" = Some c ->
  params self !! "critic_model_type" = Some mt ->
  subscript c "checkpoint_path" = Ok path ->
  lower name = "node" \/ lower name = "fcn" ->
  create_critic self =
    (net ← (if String.eqb (lower name) "node" then create_node_model c mt
            else create_fcn_model c mt);
     net' ← (if truthy path
             then ckpt ← torch_load path; load_state_dict net ckpt
             else Ok net);
     Ok (mkWGAN (params self) (generator_model self) (Some net'))).
Proof.
  intros Ha Hc Hmt Hp Hl. unfold create_critic, getitem, load_checkpoint.
  rewrite Ha. cbn. rewrite Hc, Hmt. cbn.
  destruct (String.eqb (lower name) "node") eqn:E1; cbn.
  - destruct (create_node_model c mt); cbn; [|reflexivity]. rewrite Hp. reflexivity.
  - destruct Hl as [Hl|Hl]; [apply String.eqb_eq in Hl; congruence|].
    rewrite Hl. cbn.
    destruct (create_fcn_model c mt); cbn; [|reflexivity]. rewrite Hp. reflexivity.
Qed.

End Optimizer_facts.

(** ** More on the per-batch computations *)

Section Batch_facts.
Context {network state_dict : Type}.
Context `{!Torch network state_dict, !Models network}.
Implicit Type w : world network.

(** What [train_critic] reports and what it leaves alone: the four keys
    in this order, under 'C/fake_pred' and 'C/real_pred' the means of the
    critic's scores of the detached generated sample and of the real
    sample, and a world that differs from the old one in the random
    generator only. *)
Theorem train_critic_diagnostics (b : batch) w (m : metrics) w' :
  train_critic b w = Ok (m, w') ->
  exists real generated w1 c fake_scores real_scores loss fake_mean real_mean gp,
    build_samples b w = Ok ((real, generated), w1) /\
    critic_model (gan_model w) = Some c /\
    forward c (detach generated) = Ok fake_scores /\
    forward c real = Ok real_scores /\
    m = [("C/loss", loss); ("C/fake_pred", fake_mean);
         ("C/real_pred", real_mean); ("gradient penalty", gp)] /\
    value fake_mean = Qmean (data fake_scores) /\
    value real_mean = Qmean (data real_scores) /\
    exists r, w' = set_random r w.
Proof.
  intros H. pose proof (train_critic_frame _ _ _ _ H) as Hframe.
  apply train_critic_ok in H
    as (real & gen & w1 & c & fake & realp & n & eps & gradient & gp & H).
  destruct H as (Hb & Hc & Hf & Hr & _ & _ & _ & _ & -> & _).
  pose proof (build_samples_frame _ _ _ _ Hb) as (r1 & ->).
  apply call_ok in Hf as (fs & Hfs & _ & Hfd & _).
  apply call_ok in Hr as (rs & Hrs & _ & Hrd & _).
  exists real, gen, (set_random r1 w), c, fs, rs.
  eexists _, _, _, _. repeat split; eauto; cbn; congruence.
Qed.

(** On the same batch and in the same world the two methods see the same
    generated sample, and the generator's loss is the negated fake mean
    that the critic reports, as long as the scores of the critic do not
    depend on whether its input is detached. *)
Theorem generator_loss_mirrors_fake_mean (b : batch) w
    (mg mc : metrics) wg wc :
  (forall c t, critic_model (gan_model w) = Some c ->
               forward c (detach t) = forward c t) ->
  train_generator b w = Ok (mg, wg) ->
  train_critic b w = Ok (mc, wc) ->
  exists loss fake_mean,
    metrics_get "G/loss" mg = Ok loss /\
    metrics_get "C/fake_pred" mc = Ok fake_mean /\
    value loss = (- value fake_mean)%Q.
Proof.
  intros Hdet Hg Hc.
  apply train_generator_ok in Hg as (real & gen & c & pred & Hb & Hcm & Hp & ->).
  pose proof (build_samples_frame _ _ _ _ Hb) as (r0 & Hwg).
  rewrite Hwg in Hcm. cbn in Hcm.
  apply call_ok in Hp as (s & Hfs & _ & Hv & _).
  apply train_critic_ok in Hc
    as (real' & gen' & w1 & c' & fake & realp & n & eps & gradient & gp & Hc).
  destruct Hc as (Hb' & Hc' & Hf & _ & _ & _ & _ & _ & -> & _).
  rewrite Hb in Hb'. injection Hb' as <- <- <-.
  rewrite Hwg in Hc'. cbn in Hc'. rewrite Hcm in Hc'. injection Hc' as <-.
  apply call_ok in Hf as (fs & Hfs' & _ & Hfd & _).
  rewrite (Hdet c gen Hcm), Hfs in Hfs'. injection Hfs' as <-.
  eexists _, _. split; [reflexivity|]. split; [reflexivity|].
  cbn. rewrite Hv, Hfd. reflexivity.
Qed.

Lemma critic_loss_reaches_critic (b : batch) w (m : metrics) w' :
  train_critic b w = Ok (m, w') ->
  exists loss, metrics_get "C/loss" m = Ok loss /\
               reaches_critic (sgraph loss) = true.
Proof.
  intros H. apply train_critic_ok in H
    as (real & gen & w1 & c & fake & realp & n & eps & gradient & gp & H).
  destruct H as (_ & _ & Hf & _ & _ & _ & _ & _ & -> & _).
  apply call_ok in Hf as (fs & _ & _ & _ & Hfg).
  eexists. split; [reflexivity|]. cbn. rewrite Hfg. cbn.
  rewrite ?orb_true_r. reflexivity.
Qed.

Lemma generator_loss_reaches_both (b : batch) w (m : metrics) w' :
  train_generator b w = Ok (m, w') ->
  exists loss, m = [("G/loss", loss)] /\
               reaches_generator (sgraph loss) = true /\
               reaches_critic (sgraph loss) = true.
Proof.
  intros H.
  apply train_generator_ok in H as (real & gen & c & pred & Hb & _ & Hp & ->).
  destruct b as [x dlls].
  apply build_samples_ok in Hb
    as (d & n & z & nz & r & nx & g & out & _ & _ & _ & _ & _ & _ & _ & Hout & Hgen & _).
  apply call_ok in Hout as (o0 & _ & _ & _ & Hog).
  apply cat1_graph in Hgen.
  apply call_ok in Hp as (p0 & _ & _ & _ & Hpg).
  eexists. split; [reflexivity|]. cbn.
  rewrite Hpg, Hgen, Hog. cbn. rewrite !orb_true_r. cbn.
  rewrite ?orb_true_r. auto.
Qed.

(** Both losses carry a graph, so [backward] never refuses them: the
    graph of 'C/loss' reaches the critic's parameters, the graph of
    'G/loss' reaches the generator's and the critic's. *)
Theorem losses_require_grad (b : batch) w (m : metrics) w' :
  (train_critic b w = Ok (m, w') ->
   exists loss, metrics_get "C/loss" m = Ok loss /\
                reaches_critic (sgraph loss) = true /\
                is_ok (backward loss w') = true) /\
  (train_generator b w = Ok (m, w') ->
   exists loss, metrics_get "G/loss" m = Ok loss /\
                reaches_generator (sgraph loss) = true /\
                reaches_critic (sgraph loss) = true /\
                is_ok (backward loss w') = true).
Proof.
  split; intros H.
  - apply critic_loss_reaches_critic in H as (loss & Hl & Hc).
    exists loss. repeat split; auto.
    unfold backward. rewrite Hc, orb_true_r. reflexivity.
  - apply generator_loss_reaches_both in H as (loss & -> & Hg & Hc).
    exists loss. repeat split; auto.
    unfold backward. rewrite Hc, orb_true_r. reflexivity.
Qed.

End Batch_facts.

Lemma cat1_matrix_data (a b : tensor) (n ca cb : nat) :
  shape a = [n; ca] -> shape b = [n; cb] ->
  cat1 a b
  = Ok (mkTensor [n; (ca + cb)%nat]
          (concat (zip_with app (chunks ca n (data a)) (chunks cb n (data b))))
          (join (graph a) (graph b))).
Proof.
  intros Ha Hb. unfold cat1. rewrite Ha, Hb.
  rewrite bool_decide_eq_true_2 by auto.
  cbn [numel foldr]. rewrite !Nat.mul_1_r. reflexivity.
Qed.

Section Layout_facts.
Context {network state_dict : Type}.
Context `{!Torch network state_dict, !Models network}.
Implicit Type w : world network.

(** The layout of the tensors built in lines 93 to 99, example by
    example: the generator reads the features followed by the noise; the
    real sample is the target followed by the features; the generated
    sample is the generator's output followed by the same features. *)
Theorem samples_layout (b : batch) w (n f k : nat) (r : rng) :
  samples_ready b w n f k r ->
  exists real generated z noise g noized_x out,
    build_samples b w = Ok ((real, generated), set_random r w) /\
    get_noise n z (random w) = Ok (noise, r) /\
    generator_model (gan_model w) = Some g /\
    forward g noized_x = Ok out /\
    data noized_x
      = concat (zip_with app (chunks f n (data b.1)) (chunks k n (data noise))) /\
    data real
      = concat (zip_with app (chunks 1 n (data b.2)) (chunks f n (data b.1))) /\
    data generated
      = concat (zip_with app (chunks 1 n (data out)) (chunks f n (data b.1))).
Proof.
  destruct b as [x dlls]. unfold samples_ready. cbn [fst snd].
  intros (Hx & Hd & [dev Hdev] & (z & noise & Hz & Hnoise & Hns)
          & (g & Hg & Hfw)).
  destruct (unsqueeze1_vector dlls n Hd) as (d & Hud & Hds & Hdd).
  assert (exists nx, cat1 x noise = Ok nx /\ shape nx = [n; (f + k)%nat] /\
            data nx = concat (zip_with app (chunks f n (data x))
                                           (chunks k n (data noise))))
    as (nx & Hnx & Hnxs & Hnxd)
    by (rewrite (cat1_matrix_data x noise n f k Hx Hns); eauto).
  assert (exists real, cat1 d x = Ok real /\
            data real = concat (zip_with app (chunks 1 n (data d))
                                             (chunks f n (data x))))
    as (real & Hreal & Hreald)
    by (rewrite (cat1_matrix_data d x n 1 f Hds Hx); eauto).
  destruct (Hfw nx Hnxs) as (out & Hout & Houts).
  assert (exists gen,
            cat1 (mkTensor (shape out) (data out)
                    (join (graph nx)
                       (join generator_leaves (saved_input nx)))) x = Ok gen /\
            data gen = concat (zip_with app (chunks 1 n (data out))
                                            (chunks f n (data x))))
    as (gen & Hgen & Hgend)
    by (rewrite (cat1_matrix_data
                   (mkTensor (shape out) (data out)
                      (join (graph nx)
                         (join generator_leaves (saved_input nx)))) x n 1 f
                   Houts Hx);
        eauto).
  exists real, gen, z, noise, g, nx, out.
  split.
  - unfold build_samples, to_float, get_self, getitem, shape0, call, draw.
    unfold mbind, M_bind, lift. cbn.
    rewrite Hdev, Hud, Hx, Hz, Hnoise. cbn.
    rewrite Hnx, Hreal. cbn. rewrite Hg. cbn.
    unfold result_bind. rewrite Hout, Hgen. reflexivity.
  - rewrite <- Hdd. repeat split; auto.
Qed.

End Layout_facts.

Lemma samples_layout_witness :
  exists real generated,
    build_samples (Toy.x, Toy.dlls) Toy.start
      = Ok ((real, generated), set_random (advance 4 Toy.stream) Toy.start) /\
    data real = [7; 1; 2; 3; 9; 4; 5; 6]%Q.
Proof.
  destruct (samples_layout (Toy.x, Toy.dlls) Toy.start 2 3 2
              (advance 4 Toy.stream) toy_samples_ready)
    as (real & gen & z & noise & g & nx & out & Hrun & _ & _ & _ & _ & Hr & _).
  exists real, gen. split; [exact Hrun | exact Hr].
Defined.

(** ** More on the two updates *)

Section Effect_facts.
Context {network state_dict : Type}.
Context `{!Torch network state_dict, !Models network, !Evaluation network}.
Implicit Type w : world network.

Lemma log_items_ok (losses : metrics) (l : list event) w w' :
  neptune_logger w = Some l ->
  log_items losses w = Ok (tt, w') ->
  w' = set_neptune_logger
         (Some (l ++ ((fun kv => log_metric kv.1 (Number (value kv.2))) <$> losses)))
         w.
Proof.
  revert l w. induction losses as [|[key v] rest IH]; intros l w Hl H.
  - apply ret_ok in H as [_ ->]. cbn. rewrite app_nil_r, <- Hl.
    destruct w; reflexivity.
  - cbn [log_items] in H. apply bind_ok in H as ([] & w1 & He & H).
    apply emit_ok in He as (l' & Hl' & ->).
    rewrite Hl in Hl'. injection Hl' as <-.
    apply (IH (l ++ [log_metric key (Number (value v))])) in H; [|reflexivity].
    subst w'. cbn. rewrite <- app_assoc. reflexivity.
Qed.

Lemma log_items_needs_logger (losses : metrics) w w' :
  losses <> [] -> log_items losses w = Ok (tt, w') ->
  exists l, neptune_logger w = Some l.
Proof.
  destruct losses as [|[key v] rest]; [congruence|]. intros _ H.
  cbn [log_items] in H. apply bind_ok in H as ([] & w1 & He & H).
  apply emit_ok in He as (l & Hl & _). eauto.
Qed.

(** The world after [generator_update]: both modules receive the
    gradient of 'G/loss', and the optimizer steps on what has accumulated
    for the module it was given. *)
Lemma generator_update_ok (b : batch) w w' :
  generator_update b w = Ok (tt, w') ->
  exists r loss l,
    train_generator b w = Ok ([("G/loss", loss)], set_random r w) /\
    neptune_logger w = Some l /\
    w' = set_neptune_logger
           (Some (l ++ [log_metric "G/loss" (Number (value loss))]))
           (set_generator_optimizer (stepped (generator_optimizer w))
              (apply_update (generator_optimizer w) (generator_optimizer_state w)
                 (set_grads (generator_grad w ++ [(loss, gan_model w)])
                    (critic_grad w ++ [(loss, gan_model w)]) (set_random r w))).2
              (set_gan_model
                 (apply_update (generator_optimizer w) (generator_optimizer_state w)
                    (set_grads (generator_grad w ++ [(loss, gan_model w)])
                       (critic_grad w ++ [(loss, gan_model w)]) (set_random r w))).1
                 (set_grads (generator_grad w ++ [(loss, gan_model w)])
                    (critic_grad w ++ [(loss, gan_model w)]) (set_random r w)))).
Proof.
  unfold generator_update. intros H.
  apply bind_ok in H as (m & w1 & Ht & H).
  pose proof (generator_loss_reaches_both _ _ _ _ Ht) as (loss & -> & Hrg & Hrc).
  pose proof (train_generator_frame _ _ _ _ Ht) as (r & Hw1).
  step_in H as loss' Hl. cbn in Hl. injection Hl as <-.
  apply bind_ok in H as ([] & w2 & Hb & H).
  apply backward_ok in Hb. rewrite Hrg, Hrc in Hb. subst w2.
  apply bind_ok in H as ([] & w3 & Hs & H).
  unfold generator_optimizer_step in Hs. injection Hs as <-.
  pose proof H as Hlog.
  apply log_items_needs_logger in Hlog as (l & Hl); [|discriminate].
  apply (log_items_ok _ l) in H; [|exact Hl].
  subst w1. exists r, loss, l. split; [exact Ht|].
  split; [exact Hl|]. rewrite H. reflexivity.
Qed.

(** One critic update, lines 68 to 74, by an optimizer that was given the
    critic's parameters. The step consumes the gradient of the 'C/loss'
    of this pass, taken with the modules as they were before the pass,
    and nothing that was accumulated earlier; the critic module takes
    one Adam update from it, with the optimizer's learning rate, weight
    decay and earlier state; the generator module, the configuration and
    the generator's optimizer are as before. *)
Theorem critic_update_effect (b : batch) w (m : metrics) w' :
  bound_to (critic_optimizer w) = Critic ->
  critic_update b w = Ok (m, w') ->
  exists loss,
    metrics_get "C/loss" m = Ok loss /\
    critic_grad w' = [(loss, gan_model w)] /\
    critic_model (gan_model w')
      = adam_update (learning_rate (critic_optimizer w))
          (weight_decay (critic_optimizer w)) (critic_optimizer_state w)
          [(loss, gan_model w)] <$> critic_model (gan_model w) /\
    critic_optimizer_state w' = critic_optimizer_state w ++ [[(loss, gan_model w)]] /\
    critic_optimizer w' = stepped (critic_optimizer w) /\
    generator_model (gan_model w') = generator_model (gan_model w) /\
    params (gan_model w') = params (gan_model w) /\
    generator_optimizer w' = generator_optimizer w /\
    generator_optimizer_state w' = generator_optimizer_state w.
Proof.
  intros Hb H. apply critic_update_world in H as (r & loss & _ & Hl & _ & H);
    [|exact Hb].
  cbn in H. subst w'. exists loss. cbn. repeat split; auto.
Qed.

(** One generator update, lines 76 to 85, by an optimizer that was given
    the generator's parameters. The step consumes the gradient of the
    'G/loss' of this pass and nothing else, whatever the critic updates
    left in the generator's gradients; the generator module takes one
    Adam update from it; the critic module and its optimizer are as
    before, although the same gradient has been added to the gradients
    of the critic's parameters; 'G/loss' is the one metric sent to the
    sink. *)
Theorem generator_update_effect (b : batch) w w0 w' :
  bound_to (generator_optimizer w) = Generator ->
  generator_optimizer_zero_grad w = Ok (tt, w0) ->
  generator_update b w0 = Ok (tt, w') ->
  exists r loss l,
    train_generator b w0 = Ok ([("G/loss", loss)], set_random r w0) /\
    generator_grad w' = [(loss, gan_model w)] /\
    critic_grad w' = critic_grad w ++ [(loss, gan_model w)] /\
    generator_model (gan_model w')
      = adam_update (learning_rate (generator_optimizer w))
          (weight_decay (generator_optimizer w)) (generator_optimizer_state w)
          [(loss, gan_model w)] <$> generator_model (gan_model w) /\
    generator_optimizer_state w'
      = generator_optimizer_state w ++ [[(loss, gan_model w)]] /\
    generator_optimizer w' = stepped (generator_optimizer w) /\
    critic_model (gan_model w') = critic_model (gan_model w) /\
    params (gan_model w') = params (gan_model w) /\
    critic_optimizer w' = critic_optimizer w /\
    critic_optimizer_state w' = critic_optimizer_state w /\
    neptune_logger w = Some l /\
    neptune_logger w' = Some (l ++ [log_metric "G/loss" (Number (value loss))]).
Proof.
  intros Hb Hz H.
  unfold generator_optimizer_zero_grad, zero_grad in Hz. rewrite Hb in Hz.
  injection Hz as <-.
  apply generator_update_ok in H as (r & loss & l & Ht & Hl & ->).
  exists r, loss, l. split; [exact Ht|].
  unfold apply_update. cbn. rewrite Hb. cbn. repeat split; auto.
Qed.

End Effect_facts.

(** ** More on the training loop *)

Section Loop_facts.
Context {network state_dict : Type}.
Context `{!Torch network state_dict, !Models network, !Evaluation network}.
Implicit Type w : world network.

(** After a critic loop of at least one pass, [critic_losses] is the dict
    of a [train_critic] run. *)
Lemma critic_loop_last (n : nat) (b : batch) (cl cl' : option metrics) w w' :
  n <> 0%nat ->
  critic_loop n b cl w = Ok (cl', w') ->
  exists m, cl' = Some m /\
            fst <$> m = ["C/loss"; "C/fake_pred"; "C/real_pred"; "gradient penalty"].
Proof.
  revert cl w. induction n as [|n IH]; intros cl w Hn H; [congruence|].
  cbn [critic_loop] in H. apply bind_ok in H as (l & w1 & Hu & H).
  destruct n as [|n].
  - apply ret_ok in H as [-> ->]. exists l. split; [reflexivity|].
    apply critic_update_ok in Hu as (w2 & w3 & w4 & loss & _ & Ht & _).
    apply train_critic_ok in Ht
      as (real & gen & w5 & c & fake & realp & k & eps & gradient & gp & Ht).
    destruct Ht as (_ & _ & _ & _ & _ & _ & _ & _ & -> & _). reflexivity.
  - apply IH in H; [exact H | discriminate].
Qed.

(** The critic loop by an optimizer that was given the critic's
    parameters never touches the generator module. *)
Lemma critic_loop_keeps_generator (n : nat) (b : batch)
    (cl cl' : option metrics) w w' :
  bound_to (critic_optimizer w) = Critic ->
  critic_loop n b cl w = Ok (cl', w') ->
  generator_model (gan_model w') = generator_model (gan_model w) /\
  bound_to (critic_optimizer w') = Critic.
Proof.
  revert cl w. induction n as [|n IH]; intros cl w Hb H.
  - apply ret_ok in H as [_ ->]. auto.
  - cbn [critic_loop] in H. apply bind_ok in H as (l & w1 & Hu & H).
    pose proof (critic_update_keeps_generator _ _ _ _ Hb Hu) as (Hg & _ & Hb1).
    apply IH in H as [Hg' Hb']; [|exact Hb1]. rewrite Hg', Hg. auto.
Qed.

(** What one pass of the loop body sends to the sink, in order: 'G/loss'
    unless the generator is frozen, then the entries of [critic_losses]
    in the order of the dict, then the image "Histograms" and the metric
    "rocauc" when the iteration index is a multiple of display_step, and
    nothing else. After at least one critic pass the dict has the four
    keys of [train_critic]. *)
Theorem fit_iteration_log (t : Trainer) (epoch iteration : nat) (b : batch)
    (vl : option (list batch)) (cl cl' : option metrics) (l0 : list event) w w' :
  neptune_logger w = Some l0 ->
  fit_iteration t epoch iteration b vl cl w = Ok (cl', w') ->
  exists losses gl dl,
    cl' = Some losses /\
    neptune_logger w'
      = Some (l0 ++ gl
                 ++ ((fun kv => log_metric kv.1 (Number (value kv.2))) <$> losses)
                 ++ dl) /\
    (if freeze_generator t then gl = []
     else exists v, gl = [log_metric "G/loss" (Number v)]) /\
    (if (Z.of_nat iteration mod display_step t =? 0)%Z
     then exists h s, dl = [log_image "Histograms" h; log_metric "rocauc" s]
     else dl = []) /\
    ((0 < critic_step t)%Z ->
     fst <$> losses = ["C/loss"; "C/fake_pred"; "C/real_pred"; "gradient penalty"]).
Proof.
  intros Hl0 H. apply fit_iteration_ok in H
    as (w1 & w2 & w3 & losses & rem & Hloop & -> & Hgen & Hlog & _ & -> & Hd).
  pose proof (critic_loop_steps _ _ _ _ _ _ Hloop) as (_ & _ & Hl1 & _).
  rewrite Hl0 in Hl1.
  assert (Hkeys : (0 < critic_step t)%Z ->
            fst <$> losses = ["C/loss"; "C/fake_pred"; "C/real_pred"; "gradient penalty"]).
  { intros Hk. apply critic_loop_last in Hloop as (m & Hm & Hkeys); [|lia].
    injection Hm as <-. exact Hkeys. }
  assert (Hw2 : exists gl, neptune_logger w2 = Some (l0 ++ gl) /\
            (if freeze_generator t then gl = []
             else exists v, gl = [log_metric "G/loss" (Number v)])).
  { destruct (freeze_generator t).
    - exists []. rewrite Hgen. cbn. rewrite app_nil_r. auto.
    - destruct Hgen as (w1' & Hw1' & Hgen).
      apply generator_update_ok in Hgen as (w4 & loss & l & _ & Hl & ->).
      rewrite Hw1' in Hl. cbn in Hl. rewrite Hl1 in Hl. injection Hl as <-.
      eexists. split; [reflexivity|]. eauto. }
  destruct Hw2 as (gl & Hl2 & Hgl).
  apply (log_items_ok _ _ _ _ Hl2) in Hlog. subst w3.
  exists losses, gl.
  destruct (Z.of_nat iteration mod display_step t =? 0)%Z.
  - apply display_ok in Hd as (fs & outputs & r & l & h & s & Hd).
    destruct Hd as (_ & _ & _ & _ & Hl & ->). cbn in Hl. injection Hl as <-.
    exists [log_image "Histograms" h; log_metric "rocauc" s].
    split; [reflexivity|]. split; [|eauto].
    cbn. rewrite <- !app_assoc. reflexivity.
  - subst w'. exists []. split; [reflexivity|]. split; [|auto].
    cbn. rewrite app_nil_r, <- app_assoc. reflexivity.
Qed.

Lemma fit_iteration_frozen (t : Trainer) (epoch iteration : nat) (b : batch)
    (vl : option (list batch)) (cl cl' : option metrics) w w' :
  freeze_generator t = true ->
  bound_to (critic_optimizer w) = Critic ->
  fit_iteration t epoch iteration b vl cl w = Ok (cl', w') ->
  generator_model (gan_model w') = generator_model (gan_model w) /\
  bound_to (critic_optimizer w') = Critic /\
  generator_optimizer w' = generator_optimizer w.
Proof.
  intros Hfz Hb H. apply fit_iteration_ok in H
    as (w1 & w2 & w3 & losses & rem & Hloop & _ & Hgen & Hlog & _ & _ & Hd).
  rewrite Hfz in Hgen.
  pose proof (critic_loop_steps _ _ _ _ _ _ Hloop) as (_ & Hgo & _).
  apply critic_loop_keeps_generator in Hloop as [Hg1 Hb1]; [|exact Hb].
  apply log_items_frame in Hlog as (l & ->).
  assert (Hw' : gan_model w' = gan_model w2 /\
                critic_optimizer w' = critic_optimizer w2 /\
                generator_optimizer w' = generator_optimizer w2).
  { destruct (rem =? 0)%Z.
    - apply display_ok in Hd as (fs & outputs & r & l' & h & s & Hd).
      destruct Hd as (_ & _ & _ & _ & _ & ->). auto.
    - subst w'. auto. }
  destruct Hw' as (-> & -> & ->). rewrite Hgen. cbn. auto.
Qed.

Lemma fit_epoch_frozen (t : Trainer) (epoch : nat) (vl : option (list batch))
    (bs : list batch) :
  forall (iteration : nat) (cl cl' : option metrics) w w',
    freeze_generator t = true ->
    bound_to (critic_optimizer w) = Critic ->
    fit_epoch t epoch iteration bs vl cl w = Ok (cl', w') ->
    generator_model (gan_model w') = generator_model (gan_model w) /\
    bound_to (critic_optimizer w') = Critic /\
    generator_optimizer w' = generator_optimizer w.
Proof.
  induction bs as [|b bs IH]; intros iteration cl cl' w w' Hfz Hb H.
  - apply ret_ok in H as [_ ->]. auto.
  - cbn [fit_epoch] in H. apply bind_ok in H as (cl1 & w1 & Hit & H).
    apply fit_iteration_frozen in Hit as (Hg & Hb1 & Ho); [|assumption..].
    apply IH in H as (Hg' & Hb' & Ho'); [|assumption..].
    rewrite Hg', Hg, Ho', Ho. auto.
Qed.

(** A frozen generator stays as it was over a whole run of [fit] of a
    freshly made [Trainer]: its module is untouched and its optimizer
    never steps. *)
Theorem fit_frozen_generator (t : Trainer) (gan : WGAN network)
    (logger : option (list event)) (r : rng) (fs : gset string)
    (train_loader vl : option (list batch)) w w' :
  Trainer_init gan logger r fs = Ok w ->
  freeze_generator t = true ->
  fit t train_loader vl w = Ok (tt, w') ->
  generator_model (gan_model w') = generator_model gan /\
  step_count (generator_optimizer w') = 0%nat.
Proof.
  intros Hinit Hfz H.
  apply Trainer_init_optimizers in Hinit as (<- & _ & Hb & Hs & _).
  unfold fit in H. apply bind_ok in H as (cl' & w1 & H & Hret).
  apply ret_ok in Hret as [_ ->].
  cut (forall n epoch cl w0,
          bound_to (critic_optimizer w0) = Critic ->
          fit_epochs t n epoch train_loader vl cl w0 = Ok (cl', w1) ->
          generator_model (gan_model w1) = generator_model (gan_model w0) /\
          generator_optimizer w1 = generator_optimizer w0).
  { intros Hgen. destruct (Hgen _ _ _ _ Hb H) as [Hg Ho].
    rewrite Hg, Ho. auto. }
  clear H. induction n as [|n IH]; intros epoch cl w0 Hb0 Hn.
  - apply ret_ok in Hn as [_ ->]. auto.
  - cbn [fit_epochs] in Hn. step_in Hn as bs Hbs.
    apply bind_ok in Hn as (cl1 & w2 & He & Hn).
    apply fit_epoch_frozen in He as (Hg & Hb2 & Ho); [|assumption..].
    apply IH in Hn as (Hg' & Ho'); [|assumption].
    rewrite Hg', Hg, Ho', Ho. auto.
Qed.

(** With a loader that yields at least one batch and at least one epoch,
    [fit] never returns when critic_step is not positive, when
    display_step is 0, or when no logger was given: the first pass of the
    loop body raises. *)
Theorem fit_misconfigured (t : Trainer) (b : batch) (bs : list batch)
    (vl : option (list batch)) w :
  (0 < max_epoch t)%Z ->
  (critic_step t <= 0)%Z \/ display_step t = 0%Z \/ neptune_logger w = None ->
  is_ok (fit t (Some (b :: bs)) vl w) = false.
Proof.
  intros He Hbad.
  destruct (fit t (Some (b :: bs)) vl w) as [[[] w']|e] eqn:E; [|reflexivity].
  exfalso. unfold fit in E. apply bind_ok in E as (cl' & w1 & E & _).
  destruct (Z.to_nat (max_epoch t)) as [|n] eqn:En; [lia|].
  cbn [fit_epochs] in E. step_in E as bs0 Hbs. injection Hbs as <-.
  apply bind_ok in E as (cl1 & w2 & E & _).
  cbn [fit_epoch] in E. apply bind_ok in E as (cl2 & w3 & Hit & _).
  pose proof (fit_iteration_counts _ _ _ _ _ _ _ _ _ Hit) as (_ & _ & _ & Hk).
  specialize (Hk eq_refl).
  destruct Hbad as [Hc | [Hd | Hl]]; [lia | |].
  - apply fit_iteration_ok in Hit as (? & ? & ? & ? & ? & _ & _ & _ & _ & Hne & _).
    contradiction.
  - apply fit_iteration_ok in Hit
      as (u1 & u2 & u3 & losses & rem & Hloop & _ & Hgen & Hlog & _).
    pose proof (critic_loop_steps _ _ _ _ _ _ Hloop) as (_ & _ & Hl1 & _).
    rewrite Hl in Hl1.
    apply critic_loop_last in Hloop as (m & Hm & Hkeys); [|lia].
    injection Hm as <-.
    assert (Hl2 : neptune_logger u2 = None).
    { destruct (freeze_generator t).
      - rewrite Hgen. exact Hl1.
      - destruct Hgen as (u1' & Hu1' & Hgen).
        apply generator_update_ok in Hgen as (? & ? & l & _ & Hl' & _).
        rewrite Hu1' in Hl'. cbn in Hl'. congruence. }
    apply log_items_needs_logger in Hlog as (l & Hl'); [congruence|].
    intros ->. discriminate.
Qed.

(** [fit] with no epoch to run or with an empty loader returns at once and
    leaves the world as it was, even when no loader was given; with at
    least one epoch and no loader it raises the TypeError of iterating
    over None. *)
Theorem fit_nothing_to_do (t : Trainer) (train_loader vl : option (list batch)) w :
  ((max_epoch t <= 0)%Z \/ train_loader = Some [] ->
   fit t train_loader vl w = Ok (tt, w)) /\
  ((0 < max_epoch t)%Z ->
   fit t None vl w = Err (TypeError "'NoneType' object is not iterable")).
Proof.
  split.
  - intros [He | ->]; unfold fit.
    + replace (Z.to_nat (max_epoch t)) with 0%nat by lia. reflexivity.
    + assert (Hn : forall n epoch cl,
                 fit_epochs t n epoch (Some []) vl cl w = Ok (cl, w)).
      { induction n as [|n IH]; intros epoch cl; [reflexivity|].
        cbn [fit_epochs]. unfold mbind, M_bind. cbn. apply IH. }
      unfold mbind, M_bind. rewrite Hn. reflexivity.
  - intros He. unfold fit.
    destruct (Z.to_nat (max_epoch t)) as [|n] eqn:En; [lia|]. reflexivity.
Qed.

End Loop_facts.

(** ** Checkpoint names *)

Lemma pretty_N_char_digit (x : N) : is_digit (pretty_N_char x) = true.
Proof. unfold pretty_N_char. repeat case_match; reflexivity. Qed.

Lemma pretty_N_go_digits (x : N) :
  forall s, all_digits s = true -> all_digits (pretty_N_go x s) = true.
Proof.
  induction (N.lt_wf_0 x) as [x _ IH]. intros s Hs.
  assert (x = 0 \/ 0 < x)%N as [->|Hx] by lia.
  - rewrite pretty_N_go_0. exact Hs.
  - rewrite pretty_N_go_step by exact Hx.
    apply IH; [apply N.div_lt; [exact Hx | reflexivity]|].
    cbn [all_digits]. rewrite pretty_N_char_digit, Hs. reflexivity.
Qed.

Lemma pretty_nat_digits (n : nat) : all_digits (pretty n) = true.
Proof.
  unfold pretty, pretty_nat, pretty, pretty_N.
  case_decide; [reflexivity|]. apply pretty_N_go_digits. reflexivity.
Qed.

(** A numeral ends at the first character that is not a digit. *)
Lemma digits_split (c : ascii) (a a' r r' : string) :
  is_digit c = false ->
  all_digits a = true -> all_digits a' = true ->
  a +:+ String c r = a' +:+ String c r' -> a = a' /\ r = r'.
Proof.
  intros Hc. revert a'. induction a as [|d a IH]; intros [|d' a'] Ha Ha' H;
    cbn in *.
  - injection H as <-. auto.
  - injection H as <- _. apply andb_true_iff in Ha' as [Hd _]. congruence.
  - injection H as -> _. apply andb_true_iff in Ha as [Hd _]. congruence.
  - injection H as <- H. apply andb_true_iff in Ha as [_ Ha].
    apply andb_true_iff in Ha' as [_ Ha'].
    destruct (IH a' Ha Ha' H) as [-> ->]. auto.
Qed.

Lemma checkpoint_name_inj (e i e' i' : nat) :
  checkpoint_name e i = checkpoint_name e' i' -> e = e' /\ i = i'.
Proof.
  unfold checkpoint_name. intros H. cbn [String.app] in H.
  injection H as H.
  apply (digits_split "_") in H as [He H];
    [|reflexivity | apply pretty_nat_digits..].
  injection H as H.
  apply (digits_split ".") in H as [Hi _];
    [|reflexivity | apply pretty_nat_digits..].
  split; eapply (inj pretty); eassumption.
Qed.

Lemma app_inj_left (d a b : string) : d +:+ a = d +:+ b -> a = b.
Proof. induction d as [|c d IH]; cbn; [auto|]. intros H. injection H as H. auto. Qed.

(** Two passes with different (epoch, iteration) never write to the same
    checkpoint path, whatever the save directory. *)
Theorem checkpoint_paths_distinct (dir : string) (e i e' i' : nat) :
  e <> e' \/ i <> i' ->
  path_join dir (checkpoint_name e i) <> path_join dir (checkpoint_name e' i').
Proof.
  intros Hne H. assert (Hn : checkpoint_name e i = checkpoint_name e' i').
  { revert H. unfold path_join.
    change (String.prefix "/" (checkpoint_name e i)) with false.
    change (String.prefix "/" (checkpoint_name e' i')) with false.
    cbv iota.
    destruct (String.eqb dir ""); [auto|].
    destruct (String.eqb _ "/"); intros H.
    - apply app_inj_left in H. exact H.
    - apply app_inj_left in H. apply (app_inj_left "/") in H. exact H. }
  apply checkpoint_name_inj in Hn. destruct Hn. destruct Hne; contradiction.
Qed.

Lemma checkpoint_paths_distinct_witness :
  path_join "checkpoints" (checkpoint_name 0 1)
  <> path_join "checkpoints" (checkpoint_name 1 0).
Proof.
  apply checkpoint_paths_distinct. left. discriminate.
Defined.

(** ** The properties above on the small instance *)

Lemma configure_optimizers_ok_witness :
  exists go co,
    configure_optimizers Toy.gan = Ok (go, co) /\
    bound_to go = Generator /\ bound_to co = Critic /\
    learning_rate co = VFloat (1 # 1000).
Proof.
  destruct (configure_optimizers Toy.gan) as [[go co]|e] eqn:E;
    [|vm_compute in E; discriminate].
  destruct (configure_optimizers_ok Toy.gan go co E)
    as (g & c & lrg & wdg & lrc & wdc & _ & Hc & _ & _ & _ & _ & Hlr & _ & _ & _ & -> & ->).
  exists (mkOptimizer Generator lrg wdg 0), (mkOptimizer Critic lrc wdc 0).
  split; [reflexivity|]. split; [reflexivity|]. split; [reflexivity|].
  vm_compute in Hc. injection Hc as <-. vm_compute in Hlr. injection Hlr as <-.
  reflexivity.
Defined.

(** "Adam" for the generator; "sgd" for the critic; and "sgd" for the
    critic with a learning rate of -1 for the generator. *)
Lemma configure_optimizers_unknown_witness :
  configure_optimizers
    (mkWGAN (<["generator" := Toy.section_cfg "Adam"]> (Toy.cfg "fcn" "fcn"))
       (Some [1%Q]) (Some [1%Q]))
  = Err (NameError "Unknown optimizer name" None) /\
  configure_optimizers
    (mkWGAN (<["critic" := Toy.section_cfg "sgd"]> (Toy.cfg "fcn" "fcn"))
       (Some [1%Q]) (Some [1%Q]))
  = Err (NameError "Unknown optimizer name" None) /\
  configure_optimizers
    (mkWGAN (<["critic" := Toy.section_cfg "sgd"]>
               (<["generator" := VDict {["optimizer" := VStr "adam";
                                         "learning_rate" := VInt (-1);
                                         "weight_decay" := VFloat 0]}]>
                  (Toy.cfg "fcn" "fcn")))
       (Some [1%Q]) (Some [1%Q]))
  = Err (ValueError "Invalid learning rate: {}" (Some (VInt (-1)))).
Proof.
  split; [|split].
  - refine (proj1 (configure_optimizers_unknown _
                     {["params" := VDict ∅; "optimizer" := VStr "Adam";
                       "learning_rate" := VFloat (1 # 1000);
                       "weight_decay" := VFloat 0;
                       "checkpoint_path" := VNone]}
                     (VStr "Adam") _) _ _);
      [reflexivity | reflexivity | discriminate].
  - refine (proj2 (configure_optimizers_unknown _
                     {["params" := VDict ∅; "optimizer" := VStr "adam";
                       "learning_rate" := VFloat (1 # 1000);
                       "weight_decay" := VFloat 0;
                       "checkpoint_path" := VNone]}
                     (VStr "sgd") _)
                  {["params" := VDict ∅; "optimizer" := VStr "sgd";
                    "learning_rate" := VFloat (1 # 1000);
                    "weight_decay" := VFloat 0;
                    "checkpoint_path" := VNone]}
                  [1%Q] (VFloat (1 # 1000)) (VFloat 0) _ _ _ _ _ _ _);
      [reflexivity | reflexivity | reflexivity | reflexivity | reflexivity
      | reflexivity | reflexivity | discriminate].
  - refine (proj2 (configure_optimizers_unknown _
                     {["optimizer" := VStr "adam";
                       "learning_rate" := VInt (-1);
                       "weight_decay" := VFloat 0]}
                     (VStr "sgd") _)
                  {["params" := VDict ∅; "optimizer" := VStr "sgd";
                    "learning_rate" := VFloat (1 # 1000);
                    "weight_decay" := VFloat 0;
                    "checkpoint_path" := VNone]}
                  [1%Q] (VInt (-1)) (VFloat 0) _ _ _ _ _ _ _);
      [reflexivity | reflexivity | reflexivity | reflexivity | reflexivity
      | reflexivity | reflexivity | discriminate].
Defined.

Lemma create_critic_ok_witness :
  exists self',
    create_critic (mkWGAN (Toy.cfg "fcn" "NoDe") None None) = Ok self' /\
    generator_model self' = None /\ is_Some (critic_model self').
Proof.
  destruct (create_critic (mkWGAN (Toy.cfg "fcn" "NoDe") None None))
    as [self'|e] eqn:E; [|vm_compute in E; discriminate].
  destruct (create_critic_ok _ self' E) as (name & net & _ & _ & Hc & Hg & _).
  exists self'. split; [reflexivity|]. split; [exact Hg|]. rewrite Hc. eauto.
Defined.

Lemma create_critic_dispatch_witness :
  create_critic (mkWGAN (Toy.cfg "fcn" "FCN") None None)
  = Ok (mkWGAN (Toy.cfg "fcn" "FCN") None (Some [1%Q])).
Proof.
  rewrite (create_critic_dispatch _ "FCN" (Toy.section_cfg "adam")
             (VStr "regression") VNone);
    [reflexivity | reflexivity.. | right; reflexivity].
Defined.

Lemma create_critic_unknown_witness :
  create_critic (mkWGAN (Toy.cfg "fcn" "transformer") None None)
  = Err (NameError "Unknown critic architecture: {}" (Some (VStr "transformer"))).
Proof.
  apply (create_critic_unknown (mkWGAN (Toy.cfg "fcn" "transformer") None None)
           "transformer"); [reflexivity | discriminate | discriminate].
Defined.

Lemma train_critic_diagnostics_witness :
  exists m w',
    train_critic (Toy.x, Toy.dlls) Toy.start = Ok (m, w') /\
    fst <$> m = ["C/loss"; "C/fake_pred"; "C/real_pred"; "gradient penalty"] /\
    gan_model w' = gan_model Toy.start.
Proof.
  destruct (train_critic (Toy.x, Toy.dlls) Toy.start) as [[m w']|e] eqn:E;
    [|vm_compute in E; discriminate].
  destruct (train_critic_diagnostics _ _ m w' E)
    as (real & gen & w1 & c & fs & rs & loss & fm & rm & gp & _ & _ & _ & _ & -> & _ & _ & r & ->).
  eexists _, _. split; [reflexivity|]. split; reflexivity.
Defined.

Lemma generator_loss_mirrors_fake_mean_witness :
  exists mg wg mc wc loss fake_mean,
    train_generator (Toy.x, Toy.dlls) Toy.start = Ok (mg, wg) /\
    train_critic (Toy.x, Toy.dlls) Toy.start = Ok (mc, wc) /\
    metrics_get "G/loss" mg = Ok loss /\
    metrics_get "C/fake_pred" mc = Ok fake_mean /\
    value loss = (- value fake_mean)%Q.
Proof.
  destruct (train_generator (Toy.x, Toy.dlls) Toy.start) as [[mg wg]|e] eqn:Eg;
    [|vm_compute in Eg; discriminate].
  destruct (train_critic (Toy.x, Toy.dlls) Toy.start) as [[mc wc]|e] eqn:Ec;
    [|vm_compute in Ec; discriminate].
  assert (Hdet : forall (c : Toy.network) t,
             critic_model (gan_model Toy.start) = Some c ->
             forward c (detach t) = forward c t) by reflexivity.
  destruct (generator_loss_mirrors_fake_mean _ _ mg mc wg wc Hdet Eg Ec)
    as (loss & fm & Hl & Hf & Hv).
  exists mg, wg, mc, wc, loss, fm. auto.
Defined.

Lemma losses_require_grad_witness :
  exists m w' loss,
    train_critic (Toy.x, Toy.dlls) Toy.start = Ok (m, w') /\
    metrics_get "C/loss" m = Ok loss /\
    is_ok (backward loss w') = true.
Proof.
  destruct (train_critic (Toy.x, Toy.dlls) Toy.start) as [[m w']|e] eqn:E;
    [|vm_compute in E; discriminate].
  destruct (proj1 (losses_require_grad (Toy.x, Toy.dlls) Toy.start m w') E)
    as (loss & Hl & _ & Hb).
  exists m, w', loss. auto.
Defined.

(** On the two examples: the step of the critic optimizer consumes one
    gradient, that of a 'C/loss' of 160, and the weights of the critic
    move. *)
Lemma critic_update_effect_witness :
  exists m w' loss,
    critic_update (Toy.x, Toy.dlls) Toy.start = Ok (m, w') /\
    metrics_get "C/loss" m = Ok loss /\ (value loss == 160)%Q /\
    critic_optimizer_state w' = [[(loss, Toy.gan)]] /\
    critic_model (gan_model w')
      = Some ((fun q => q - (1 # 10) * (value loss + 0))%Q <$> [3; 4; 0; 0]%Q) /\
    generator_model (gan_model w') = Some [1; 0; 0; 1; 0]%Q.
Proof.
  destruct (critic_update (Toy.x, Toy.dlls) Toy.start) as [[m w']|e] eqn:E;
    [|vm_compute in E; discriminate].
  destruct (critic_update_effect (Toy.x, Toy.dlls) Toy.start m w' eq_refl E)
    as (loss & Hl & _ & Hc & Hs & _ & Hg & _).
  exists m, w', loss. split; [reflexivity|]. split; [exact Hl|].
  split; [|split; [exact Hs | split; [exact Hc | exact Hg]]].
  assert (Hv : match critic_update (Toy.x, Toy.dlls) Toy.start with
               | Ok (m, _) => match metrics_get "C/loss" m with
                              | Ok l => Qeq_bool (value l) 160
                              | Err _ => false
                              end
               | Err _ => false
               end = true) by (vm_compute; reflexivity).
  rewrite E, Hl in Hv. apply Qeq_bool_eq, Hv.
Defined.

(** On the two examples: the step of the generator optimizer consumes
    the gradient of a 'G/loss' of -41/2, which is also added to the
    gradients of the critic's parameters; the critic's weights stay. *)
Lemma generator_update_effect_witness :
  exists w' loss,
    generator_update (Toy.x, Toy.dlls) Toy.start = Ok (tt, w') /\
    (value loss == - (41 # 2))%Q /\
    generator_grad w' = [(loss, Toy.gan)] /\
    critic_grad w' = [(loss, Toy.gan)] /\
    critic_model (gan_model w') = Some [3; 4; 0; 0]%Q /\
    step_count (generator_optimizer w') = 1%nat.
Proof.
  destruct (generator_update (Toy.x, Toy.dlls) Toy.start) as [[[] w']|e] eqn:E;
    [|vm_compute in E; discriminate].
  destruct (generator_update_effect (Toy.x, Toy.dlls) Toy.start Toy.start w'
              eq_refl eq_refl E)
    as (r & loss & l & Ht & Hgg & Hcg & _ & _ & Ho & Hc & _).
  exists w', loss. split; [reflexivity|].
  split; [|split; [exact Hgg | split; [exact Hcg | split; [exact Hc|]]]].
  - assert (Hv : match train_generator (Toy.x, Toy.dlls) Toy.start with
                 | Ok ([(_, l)], _) => Qeq_bool (value l) (- (41 # 2))
                 | _ => false
                 end = true) by (vm_compute; reflexivity).
    rewrite Ht in Hv. apply Qeq_bool_eq, Hv.
  - rewrite Ho. reflexivity.
Defined.

Lemma fit_iteration_log_witness :
  exists cl' w' v losses h s,
    fit_iteration Toy.trainer 0 0 (Toy.x, Toy.dlls) None None Toy.start
      = Ok (cl', w') /\
    neptune_logger w'
      = Some ([log_metric "G/loss" (Number v)]
                ++ ((fun kv => log_metric kv.1 (Number (value kv.2))) <$> losses)
                ++ [log_image "Histograms" h; log_metric "rocauc" s]) /\
    fst <$> losses = ["C/loss"; "C/fake_pred"; "C/real_pred"; "gradient penalty"].
Proof.
  destruct (fit_iteration Toy.trainer 0 0 (Toy.x, Toy.dlls) None None Toy.start)
    as [[cl' w']|e] eqn:E; [|vm_compute in E; discriminate].
  destruct (fit_iteration_log Toy.trainer 0 0 (Toy.x, Toy.dlls) None None cl'
              [] Toy.start w' eq_refl E)
    as (losses & gl & dl & _ & Hl & Hgl & Hdl & Hk).
  cbn in Hgl, Hdl. destruct Hgl as (v & ->). destruct Hdl as (h & s & ->).
  exists cl', w', v, losses, h, s. split; [reflexivity|].
  split; [exact Hl|]. apply Hk. reflexivity.
Defined.

Lemma fit_frozen_generator_witness :
  exists w w',
    Trainer_init Toy.gan (Some []) Toy.stream ∅ = Ok w /\
    fit (mkTrainer 1 1 2 "cpu" "checkpoints" true) (Some [(Toy.x, Toy.dlls)]) None w
      = Ok (tt, w') /\
    generator_model (gan_model w') = Some [1; 0; 0; 1; 0]%Q /\
    step_count (generator_optimizer w') = 0%nat.
Proof.
  destruct (Trainer_init Toy.gan (Some []) Toy.stream ∅) as [w|e] eqn:Ei;
    [|vm_compute in Ei; discriminate].
  destruct (fit (mkTrainer 1 1 2 "cpu" "checkpoints" true)
              (Some [(Toy.x, Toy.dlls)]) None w) as [[[] w']|e] eqn:E.
  - destruct (fit_frozen_generator (mkTrainer 1 1 2 "cpu" "checkpoints" true)
                Toy.gan (Some []) Toy.stream ∅ (Some [(Toy.x, Toy.dlls)]) None
                w w' Ei eq_refl E) as [Hg Hs].
    exists w, w'. auto.
  - exfalso. vm_compute in Ei. injection Ei as <-. vm_compute in E. discriminate.
Defined.

Lemma fit_misconfigured_witness :
  is_ok (fit (mkTrainer 1 1 0 "cpu" "checkpoints" false)
           (Some [(Toy.x, Toy.dlls)]) None Toy.start) = false.
Proof.
  apply fit_misconfigured; [reflexivity | left; cbn; lia].
Defined.

Lemma fit_nothing_to_do_witness :
  fit (mkTrainer 0 1 2 "cpu" "checkpoints" false) None None Toy.start
    = Ok (tt, Toy.start) /\
  fit Toy.trainer None None Toy.start
    = Err (TypeError "'NoneType' object is not iterable").
Proof.
  split.
  - apply (proj1 (fit_nothing_to_do _ None None Toy.start)). left. cbn. lia.
  - apply (proj2 (fit_nothing_to_do Toy.trainer None None Toy.start)). reflexivity.
Defined.

Lemma fit_counts_witness :
  exists w',
    fit Toy.trainer (Some [(Toy.x, Toy.dlls)]) None Toy.start = Ok (tt, w') /\
    step_count (critic_optimizer w') = 2%nat /\
    step_count (generator_optimizer w') = 1%nat.
Proof.
  destruct (fit Toy.trainer (Some [(Toy.x, Toy.dlls)]) None Toy.start)
    as [[[] w']|e] eqn:E; [|vm_compute in E; discriminate].
  destruct (fit_counts Toy.trainer [(Toy.x, Toy.dlls)] None Toy.start w' E)
    as [Hc Hg].
  exists w'. split; [reflexivity|]. cbn in Hc, Hg. split; [lia | exact Hg].
Defined.
